(** * build_gallery.py: the static dependency extractor and the gallery
      orchestrator of [assets/scripts/build_gallery.py]

    The script has three functions.  [get_contrib_requirements] parses a
    plugin file and scans its syntax tree; [execute_shell_command] runs a
    command under bash; [build_gallery] walks the plugin directory, installs
    what the extractor found, imports the plugins and collects diagnostics.

    The syntax tree, the values produced by [ast.literal_eval] and the few
    operations of the Python runtime that the script calls are embedded as
    Rocq data and functions.  Whatever lives outside the script (the file
    system, the registry of the validated library, the package installer) is
    taken as an interface whose operations are parameters. *)

From stdpp Require Import gmap strings list.
From Stdlib Require Import ZArith.

Set Warnings "-register-all,-clear-no-such-hyp".

Local Open Scope string_scope.
Local Open Scope list_scope.
Local Open Scope Z_scope.

(** ** Exceptions and results *)

(** The exceptions the script can meet.  [OtherError] stands for whatever an
    external collaborator raises ([SyntaxError], [ImportError], ...). *)
Inductive py_exception : Type :=
| ValueError
| AttributeError
| TypeError
| OtherError (name : string).

Inductive result (A : Type) : Type :=
| Ok (a : A)
| Raise (e : py_exception).
Arguments Ok {A} a.
Arguments Raise {A} e.

#[global] Instance result_ret : MRet result := fun A a => Ok a.
#[global] Instance result_bind : MBind result := fun A B f m =>
  match m with
  | Ok a => f a
  | Raise e => Raise e
  end.

(** ** Syntax trees (the part of [ast] the script can observe)

    Numbers are integers only (floats and complex constants are left out).
    The [ctx] and operator singletons, [arguments] and [alias] are left out
    as well: none of them is a [ClassDef] or an [Assign], and none has a
    statement below it.  The statements with parts of a kind of their own
    ([try] with its handlers, [with], [match]) are not in this fragment. *)

Inductive constant : Type :=
| CNone
| CEllipsis
| CBool (b : bool)
| CInt (n : Z)
| CStr (s : string)
| CBytes (b : string).

Inductive unaryop : Type := Invert | Not | UAdd | USub.
Inductive operator : Type := Add | Sub | Mult | Div | Mod | BitOr | BitAnd.

Inductive expr : Type :=
| Constant (value : constant)
| Name (id : string)
| Attribute (value : expr) (attr : string)
| Subscript (value : expr) (slice : expr)
| Starred (value : expr)
| UnaryOp (op : unaryop) (operand : expr)
| BinOp (left : expr) (op : operator) (right : expr)
| Call (func : expr) (args : list expr) (keywords : list keyword)
| Tuple (elts : list expr)
| List (elts : list expr)
| Set_ (elts : list expr)
| Dict (keys : list (option expr)) (values : list expr)
with keyword : Type :=
| Keyword (arg : option string) (value : expr).

Inductive stmt : Type :=
| FunctionDef (name : string) (body : list stmt) (decorator_list : list expr)
    (returns : option expr)
| ClassDef (name : string) (bases : list expr) (keywords : list keyword)
    (body : list stmt) (decorator_list : list expr)
| Return (value : option expr)
| Assign (targets : list expr) (value : expr)
| AugAssign (target : expr) (op : operator) (value : expr)
| AnnAssign (target annotation : expr) (value : option expr)
| For (target iter : expr) (body orelse : list stmt)
| While (test : expr) (body orelse : list stmt)
| If (test : expr) (body orelse : list stmt)
| Import (names : list string)
| ImportFrom (module : option string) (names : list string)
| Expr (value : expr)
| Pass.

(** [ast.Module]: only its [body] is modelled. *)
Definition py_module : Type := list stmt.

(** Any node that [ast.walk] can yield. *)
Inductive node : Type :=
| NStmt (s : stmt)
| NExpr (e : expr)
| NKeyword (k : keyword).

Definition option_nodes (o : option expr) : list node :=
  match o with
  | Some e => [NExpr e]
  | None => []
  end.

(** [ast.iter_child_nodes]: the node-valued fields, in [_fields] order. *)
Definition iter_child_nodes (n : node) : list node :=
  match n with
  | NExpr e =>
      match e with
      | Constant _ | Name _ => []
      | Attribute v _ => [NExpr v]
      | Subscript v s => [NExpr v; NExpr s]
      | Starred v => [NExpr v]
      | UnaryOp _ v => [NExpr v]
      | BinOp l _ r => [NExpr l; NExpr r]
      | Call f args kws => NExpr f :: map NExpr args ++ map NKeyword kws
      | Tuple elts | List elts | Set_ elts => map NExpr elts
      | Dict keys values => concat (map option_nodes keys) ++ map NExpr values
      end
  | NKeyword (Keyword _ v) => [NExpr v]
  | NStmt s =>
      match s with
      | FunctionDef _ body decs returns =>
          map NStmt body ++ map NExpr decs ++ option_nodes returns
      | ClassDef _ bases kws body decs =>
          map NExpr bases ++ map NKeyword kws ++ map NStmt body ++ map NExpr decs
      | Return v => option_nodes v
      | Assign targets v => map NExpr targets ++ [NExpr v]
      | AugAssign t _ v => [NExpr t; NExpr v]
      | AnnAssign t a v => NExpr t :: NExpr a :: option_nodes v
      | For t i body orelse => NExpr t :: NExpr i :: map NStmt body ++ map NStmt orelse
      | While t body orelse => NExpr t :: map NStmt body ++ map NStmt orelse
      | If t body orelse => NExpr t :: map NStmt body ++ map NStmt orelse
      | Import _ | ImportFrom _ _ | Pass => []
      | Expr v => [NExpr v]
      end
  end.

(** Number of nodes of a subtree. *)
Fixpoint expr_size (e : expr) : nat :=
  S match e with
    | Constant _ | Name _ => 0
    | Attribute v _ | Starred v | UnaryOp _ v => expr_size v
    | Subscript a b | BinOp a _ b => expr_size a + expr_size b
    | Call f args kws =>
        expr_size f + sum_list_with expr_size args + sum_list_with keyword_size kws
    | Tuple elts | List elts | Set_ elts => sum_list_with expr_size elts
    | Dict keys values =>
        sum_list_with (fun k => match k with Some e => expr_size e | None => 0 end) keys
        + sum_list_with expr_size values
    end%nat
with keyword_size (k : keyword) : nat :=
  match k with
  | Keyword _ v => S (expr_size v)
  end.

Definition option_size (o : option expr) : nat :=
  match o with
  | Some e => expr_size e
  | None => 0
  end.

Fixpoint stmt_size (s : stmt) : nat :=
  S match s with
    | FunctionDef _ body decs returns =>
        sum_list_with stmt_size body + sum_list_with expr_size decs + option_size returns
    | ClassDef _ bases kws body decs =>
        sum_list_with expr_size bases + sum_list_with keyword_size kws
        + sum_list_with stmt_size body + sum_list_with expr_size decs
    | Return v => option_size v
    | Assign targets v => sum_list_with expr_size targets + expr_size v
    | AugAssign t _ v => expr_size t + expr_size v
    | AnnAssign t a v => expr_size t + expr_size a + option_size v
    | For t i body orelse =>
        expr_size t + expr_size i + sum_list_with stmt_size body
        + sum_list_with stmt_size orelse
    | While t body orelse | If t body orelse =>
        expr_size t + sum_list_with stmt_size body + sum_list_with stmt_size orelse
    | Import _ | ImportFrom _ _ | Pass => 0
    | Expr v => expr_size v
    end%nat.

Definition node_size (n : node) : nat :=
  match n with
  | NStmt s => stmt_size s
  | NExpr e => expr_size e
  | NKeyword k => keyword_size k
  end.

(** [ast.walk]: a queue, [popleft], then [extend] with the children.  The
    fuel bounds the number of [popleft]s; [walk] gives one unit per node. *)
Fixpoint walk_queue (fuel : nat) (todo : list node) : list node :=
  match fuel with
  | O => []
  | S fuel' =>
      match todo with
      | [] => []
      | n :: rest => n :: walk_queue fuel' (rest ++ iter_child_nodes n)
      end
  end.

Definition walk (n : node) : list node := walk_queue (node_size n) [n].

(** Number of nodes at and below the nodes of a queue. *)
Definition queue_size (todo : list node) : nat := sum_list_with node_size todo.

(** [d] is [n] or lies below it in the tree. *)
Inductive descendant : node -> node -> Prop :=
| descendant_self (n : node) : descendant n n
| descendant_child (n c d : node) :
    In c (iter_child_nodes n) -> descendant c d -> descendant n d.

(** ** Values of [ast.literal_eval] *)

(** A set keeps the elements it was built from, in the order they were
    added; the order in which it is iterated belongs to the runtime.  A
    dictionary keeps its items in insertion order, one per key. *)
Inductive pyval : Type :=
| VNone
| VEllipsis
| VBool (b : bool)
| VInt (n : Z)
| VStr (s : string)
| VBytes (b : string)
| VTuple (elts : list pyval)
| VList (elts : list pyval)
| VSet (elts : list pyval)
| VDict (items : list (pyval * pyval)).

Definition constant_value (c : constant) : pyval :=
  match c with
  | CNone => VNone
  | CEllipsis => VEllipsis
  | CBool b => VBool b
  | CInt n => VInt n
  | CStr s => VStr s
  | CBytes b => VBytes b
  end.

(** [hash(v)] succeeds. *)
Fixpoint hashable (v : pyval) : bool :=
  match v with
  | VList _ | VSet _ | VDict _ => false
  | VTuple elts => forallb hashable elts
  | _ => true
  end.

(** [a == b] on hashable values ([True == 1] and [False == 0]). *)
Fixpoint key_eq (a b : pyval) : bool :=
  match a, b with
  | VNone, VNone => true
  | VEllipsis, VEllipsis => true
  | VBool x, VBool y => Z.b2z x =? Z.b2z y
  | VBool x, VInt y => Z.b2z x =? y
  | VInt x, VBool y => x =? Z.b2z y
  | VInt x, VInt y => x =? y
  | VStr s, VStr t => String.eqb s t
  | VBytes s, VBytes t => String.eqb s t
  | VTuple l, VTuple m =>
      (fix go (l m : list pyval) : bool :=
         match l, m with
         | [], [] => true
         | x :: l', y :: m' => key_eq x y && go l' m'
         | _, _ => false
         end) l m
  | _, _ => false
  end.

(** [d[k] = v] on the items of a dictionary. *)
Fixpoint dict_setitem (d : list (pyval * pyval)) (k v : pyval) : list (pyval * pyval) :=
  match d with
  | [] => [(k, v)]
  | (k', v') :: d' =>
      if key_eq k' k then (k', v) :: d' else (k', v') :: dict_setitem d' k v
  end.

(** [d.get(k, default)] on the items of a dictionary. *)
Fixpoint dict_get (d : list (pyval * pyval)) (k default : pyval) : pyval :=
  match d with
  | [] => default
  | (k', v') :: d' => if key_eq k' k then v' else dict_get d' k default
  end.

(** [ast.literal_eval] on a node: [_convert_num], [_convert_signed_num] and
    [_convert].  [set(...)] and [dict(zip(...))] consume their argument
    lazily, so an element is hashed before the next one is converted; in a
    dictionary display the key of an item is converted, then its value, then
    the key is hashed.  A [None] key (a [**] unpacking) is malformed. *)
Definition convert_num (e : expr) : result Z :=
  match e with
  | Constant (CInt n) => Ok n
  | _ => Raise ValueError
  end.

Definition convert_signed_num (e : expr) : result Z :=
  match e with
  | UnaryOp UAdd operand => n ← convert_num operand; Ok n
  | UnaryOp USub operand => n ← convert_num operand; Ok (- n)
  | _ => convert_num e
  end.

Fixpoint convert (e : expr) : result pyval :=
  match e with
  | Constant c => Ok (constant_value c)
  | Tuple elts =>
      vs ← (fix go (l : list expr) : result (list pyval) :=
              match l with
              | [] => Ok []
              | x :: l' => v ← convert x; vs ← go l'; Ok (v :: vs)
              end) elts;
      Ok (VTuple vs)
  | List elts =>
      vs ← (fix go (l : list expr) : result (list pyval) :=
              match l with
              | [] => Ok []
              | x :: l' => v ← convert x; vs ← go l'; Ok (v :: vs)
              end) elts;
      Ok (VList vs)
  | Set_ elts =>
      vs ← (fix go (l : list expr) : result (list pyval) :=
              match l with
              | [] => Ok []
              | x :: l' =>
                  v ← convert x;
                  if hashable v then vs ← go l'; Ok (v :: vs) else Raise TypeError
              end) elts;
      Ok (VSet vs)
  | Call (Name "set") [] [] => Ok (VSet [])
  | Dict keys values =>
      if negb (length keys =? length values)%nat then Raise ValueError
      else
        let converted_keys :=
          (fix go (ks : list (option expr)) : list (result pyval) :=
             match ks with
             | [] => []
             | Some ke :: ks' => convert ke :: go ks'
             | None :: ks' => Raise ValueError :: go ks'
             end) keys in
        d ← (fix go (vs : list expr) (ks : list (result pyval))
                 (d : list (pyval * pyval)) : result (list (pyval * pyval)) :=
               match vs, ks with
               | v :: vs', k :: ks' =>
                   k' ← k;
                   v' ← convert v;
                   if hashable k' then go vs' ks' (dict_setitem d k' v')
                   else Raise TypeError
               | _, _ => Ok d
               end) values converted_keys [];
        Ok (VDict d)
  | BinOp lhs (Add | Sub) rhs =>
      _ ← convert_signed_num lhs;
      _ ← convert_num rhs;
      n ← convert_signed_num e;
      Ok (VInt n)
  | _ => n ← convert_signed_num e; Ok (VInt n)
  end.

Definition literal_eval (node_or_string : expr) : result pyval :=
  convert node_or_string.

(** ** The runtime under the extractor *)

Record Runtime : Type := {
  (** [open(filepath)] followed by [ast.parse(file.read())] *)
  open_and_parse : string -> result py_module;
  (** the order in which a set built from these elements is iterated *)
  set_iteration : list pyval -> list pyval
}.

(** A [str] is held as its UTF-8 encoding, so a character (a code point)
    takes one to four bytes: a first byte and the continuation bytes that
    follow it. *)
Definition is_continuation (c : Ascii.ascii) : bool :=
  let n := Ascii.nat_of_ascii c in
  ((128 <=? n) && (n <? 192))%nat.

Definition starts_with_continuation (s : string) : bool :=
  match s with
  | String c _ => is_continuation c
  | EmptyString => false
  end.

(** The one-character strings of a string, as iteration yields them: one
    element per code point. *)
Fixpoint chars (s : string) : list string :=
  match s with
  | EmptyString => []
  | String c s' =>
      if starts_with_continuation s' then
        match chars s' with
        | following :: rest => String c following :: rest
        | [] => [String c EmptyString]
        end
      else String c EmptyString :: chars s'
  end.

(** The integers of a bytes object, as iteration yields them. *)
Fixpoint byte_values (b : string) : list Z :=
  match b with
  | EmptyString => []
  | String c b' => Z.of_N (Ascii.N_of_ascii c) :: byte_values b'
  end.

(** [l += x] for a list [l]: [x] is iterated and its items appended. *)
Definition list_iadd (rt : Runtime) (l : list pyval) (x : pyval) : result (list pyval) :=
  match x with
  | VList elts | VTuple elts => Ok (l ++ elts)
  | VStr s => Ok (l ++ map VStr (chars s))
  | VBytes b => Ok (l ++ map VInt (byte_values b))
  | VSet elts => Ok (l ++ set_iteration rt elts)
  | VDict items => Ok (l ++ map fst items)
  | VNone | VEllipsis | VBool _ | VInt _ => Raise TypeError
  end.

(** [v.get(key, default)]: only a dictionary has the attribute. *)
Definition py_get (v key default : pyval) : result pyval :=
  match v with
  | VDict items => Ok (dict_get items key default)
  | _ => Raise AttributeError
  end.

(** ** get_contrib_requirements *)

Record RequirementsInfo : Type := {
  classes : list string;
  requirements : list pyval
}.

(** [target.id] *)
Definition target_id (target : expr) : result string :=
  match target with
  | Name id => Ok id
  | _ => Raise AttributeError
  end.

(** [[target.id for target in node.targets]] *)
Fixpoint target_id_list (targets : list expr) : result (list string) :=
  match targets with
  | [] => Ok []
  | target :: rest => id ← target_id target; ids ← target_id_list rest; Ok (id :: ids)
  end.

(** The [try] ... [except (ValueError, AttributeError)] around it. *)
Definition target_ids (targets : list expr) : result (list string) :=
  match target_id_list targets with
  | Ok ids => Ok ids
  | Raise ValueError | Raise AttributeError => Ok []
  | Raise e => Raise e
  end.

(** The body of [for node in ast.walk(child)]. *)
Definition scan_node (rt : Runtime) (n : node) (info : RequirementsInfo)
  : result RequirementsInfo :=
  match n with
  | NStmt (Assign targets value) =>
      ids ← target_ids targets;
      if bool_decide ("library_metadata" ∈ ids) then
        library_metadata ← literal_eval value;
        found ← py_get library_metadata (VStr "requirements") (VList []);
        reqs ← list_iadd rt (requirements info) found;
        Ok {| classes := classes info; requirements := reqs |}
      else Ok info
  | _ => Ok info
  end.

Fixpoint scan_nodes (rt : Runtime) (nodes : list node) (info : RequirementsInfo)
  : result RequirementsInfo :=
  match nodes with
  | [] => Ok info
  | n :: rest => info' ← scan_node rt n info; scan_nodes rt rest info'
  end.

(** The body of [for child in ast.iter_child_nodes(tree)]. *)
Definition scan_child (rt : Runtime) (child : stmt) (info : RequirementsInfo)
  : result RequirementsInfo :=
  match child with
  | ClassDef name _ _ _ _ =>
      scan_nodes rt (walk (NStmt child))
        {| classes := classes info ++ chars name; requirements := requirements info |}
  | _ => Ok info
  end.

Fixpoint scan_children (rt : Runtime) (children : list stmt) (info : RequirementsInfo)
  : result RequirementsInfo :=
  match children with
  | [] => Ok info
  | child :: rest => info' ← scan_child rt child info; scan_children rt rest info'
  end.

Definition get_contrib_requirements (rt : Runtime) (filepath : string)
  : result RequirementsInfo :=
  tree ← open_and_parse rt filepath;
  scan_children rt tree {| classes := []; requirements := [] |}.

(** ** Strings as the script uses them *)

(** [s.endswith(suffix)] *)
Definition endswith (s suffix : string) : bool :=
  let n := String.length s in
  let k := String.length suffix in
  (k <=? n)%nat && String.eqb (String.substring (n - k) k s) suffix.

(** [s[:-3]], for a string whose last three characters take one byte each,
    as those of a name that ends with [.py] do. *)
Definition drop_last3 (s : string) : string :=
  String.substring 0 (String.length s - 3) s.

(** The whitespace [str.strip()] removes: the one-byte characters 9 to 13
    and 28 to 32, and the code points U+0085, U+00A0, U+1680, U+2000 to
    U+200A, U+2028, U+2029, U+202F, U+205F and U+3000. *)
Definition is_space (c : Ascii.ascii) : bool :=
  let n := Ascii.nat_of_ascii c in
  ((9 <=? n) && (n <=? 13) || (28 <=? n) && (n <=? 32))%nat.

Definition utf8 (bytes : list nat) : string :=
  fold_right (fun b s => String (Ascii.ascii_of_nat b) s) EmptyString bytes.

Definition unicode_spaces : list string :=
  ([utf8 [194; 133]; utf8 [194; 160]; utf8 [225; 154; 128]]
   ++ map (fun b => utf8 [226; 128; b]) (seq 128 11)
   ++ [utf8 [226; 128; 168]; utf8 [226; 128; 169]; utf8 [226; 128; 175];
       utf8 [226; 129; 159]; utf8 [227; 128; 128]])%nat.

Definition is_space_char (ch : string) : bool :=
  match ch with
  | String c EmptyString => is_space c
  | _ => existsb (String.eqb ch) unicode_spaces
  end.

Fixpoint lstrip_chars (l : list string) : list string :=
  match l with
  | ch :: rest => if is_space_char ch then lstrip_chars rest else l
  | [] => []
  end.

(** [s.strip()] *)
Definition strip (s : string) : string :=
  fold_right String.append EmptyString
    (rev (lstrip_chars (rev (lstrip_chars (chars s))))).

(** [os.path.join] of [posixpath]. *)
Definition path_join2 (path b : string) : string :=
  if String.prefix "/" b then b
  else if String.eqb path EmptyString || endswith path "/" then path +:+ b
  else path +:+ "/" +:+ b.

Definition os_path_join (a : string) (p : list string) : string :=
  fold_left path_join2 p a.

(** ** The world around the orchestrator *)

Inductive level : Type := DEBUG | INFO | ERROR.

(** What the script does to its environment, in the order it does it. *)
Inductive event : Type :=
| Logged (lvl : level) (msg : string)
| StderrWrite (text : string)
| ImportStatement (name : string)
| ListRegistered
| SysPathAppend (dir : string)
| ImportModule (name package : string)
| OsWalk (top : string)
| OpenFile (path : string)
| SubprocessRun (args : list string)
| RunDiagnostics (expectation : string).

Record CompletedProcess : Type := {
  returncode : Z;
  stdout : string;
  stderr : string
}.

(** A module object, as far as the script looks at it: its [__all__]. *)
Record module_object : Type := {
  module_all : list string
}.

(** The collaborators of the script, over a world [W] of their own; [D] is
    the type of a diagnostics report. *)
Record Externals (W D : Type) : Type := {
  (** the interpreter and the file system in a given world *)
  runtime : W -> Runtime;
  (** [os.path.dirname(__file__)] *)
  script_dirname : string;
  (** [str(v)] for a value that is not a string *)
  str_other : pyval -> string;
  (** [os.getcwd()] *)
  os_getcwd : W -> string;
  (** [os.environ.get("PATH", os.defpath)] *)
  environ_path : W -> string;
  (** [import great_expectations] *)
  import_great_expectations : W -> result unit * W;
  (** [registry.list_registered_expectation_implementations()] *)
  list_registered_expectation_implementations : W -> list string;
  (** [sys.path.append(dir)] *)
  sys_path_append : string -> W -> W;
  (** [importlib.import_module(name, package)] *)
  import_module : string -> string -> W -> result module_object * W;
  (** [os.walk(top)], as the list it yields *)
  os_walk : string -> W -> list (string * list string * list string);
  (** [subprocess.run] of [args] in directory [cwd] with the given [PATH],
      without its [check]: the completed process, or the exception of the
      call itself when the shell cannot be started or its output cannot be
      decoded, none of which is a [CalledProcessError] *)
  subprocess_run : list string -> string -> string -> W
                   -> result CompletedProcess * W;
  (** [str(cpe)] and [traceback.format_exc()] for a failed run *)
  str_called_process_error : list string -> CompletedProcess -> string;
  format_exc : list string -> CompletedProcess -> string;
  (** the order in which a set of these names is iterated *)
  name_set_iteration : list string -> list string;
  (** [registry.get_expectation_impl(name)], instantiation of the result and
      its [run_diagnostics()] *)
  run_diagnostics : string -> W -> result D * W
}.
Arguments runtime {W D} _ _.
Arguments script_dirname {W D} _.
Arguments str_other {W D} _ _.
Arguments os_getcwd {W D} _ _.
Arguments environ_path {W D} _ _.
Arguments import_great_expectations {W D} _ _.
Arguments list_registered_expectation_implementations {W D} _ _.
Arguments sys_path_append {W D} _ _ _.
Arguments import_module {W D} _ _ _ _.
Arguments os_walk {W D} _ _ _.
Arguments subprocess_run {W D} _ _ _ _ _.
Arguments str_called_process_error {W D} _ _ _.
Arguments format_exc {W D} _ _ _.
Arguments name_set_iteration {W D} _ _.
Arguments run_diagnostics {W D} _ _ _.

(** The state of a run: the world and the events so far, oldest first. *)
Record State (W : Type) : Type := {
  world : W;
  events : list event
}.
Arguments world {W} _.
Arguments events {W} _.
Arguments Build_State {W} _ _.

(** A step of the script: it may raise, and it leaves a state either way. *)
Definition M (W A : Type) : Type := State W -> result A * State W.

#[global] Instance M_ret {W} : MRet (M W) := fun A a st => (Ok a, st).
#[global] Instance M_bind {W} : MBind (M W) := fun A B f m st =>
  match m st with
  | (Ok a, st') => f a st'
  | (Raise e, st') => (Raise e, st')
  end.

Definition emit {W} (e : event) : M W unit :=
  fun st => (Ok tt, {| world := world st; events := events st ++ [e] |}).

(** A call that reads the world. *)
Definition ext_read {W A} (f : W -> A) : M W A :=
  fun st => (Ok (f (world st)), st).

(** A call that changes the world. *)
Definition ext_call {W A} (f : W -> A * W) : M W A :=
  fun st => let '(a, w) := f (world st) in
            (Ok a, {| world := w; events := events st |}).

(** A call that changes the world and may raise. *)
Definition ext_try {W A} (f : W -> result A * W) : M W A :=
  fun st => let '(r, w) := f (world st) in
            (r, {| world := w; events := events st |}).

(** Passing on the outcome of a pure computation. *)
Definition lift {W A} (r : result A) : M W A := fun st => (r, st).

(** [for x in l: body(x)] *)
Fixpoint for_each {W A} (l : list A) (body : A -> M W unit) : M W unit :=
  match l with
  | [] => mret tt
  | x :: rest => _ ← body x; for_each rest body
  end.

(** [for x in l: acc = body(x, acc)] for a loop that updates a local. *)
Fixpoint for_fold {W A B} (l : list A) (body : A -> B -> M W B) (acc : B) : M W B :=
  match l with
  | [] => mret acc
  | x :: rest => acc' ← body x acc; for_fold rest body acc'
  end.

(** The double quote and the newline inside the script's string literals. *)
Definition dquote : string := String (Ascii.ascii_of_nat 34) EmptyString.
Definition newline : string := String (Ascii.ascii_of_nat 10) EmptyString.

Section Orchestrator.
Context {W D : Type} (X : Externals W D).

Definition logger_debug (msg : string) : M W unit := emit (Logged DEBUG msg).
Definition logger_info (msg : string) : M W unit := emit (Logged INFO msg).
Definition logger_error (msg : string) : M W unit := emit (Logged ERROR msg).

(** [str(v)] *)
Definition py_str (v : pyval) : string :=
  match v with
  | VStr s => s
  | _ => str_other X v
  end.

(** ** execute_shell_command

    [run(..., check=True)] raises [CalledProcessError] on a non-zero
    return code; the handler turns it into the status code.  Any other
    exception of [run] is not handled and goes on to the caller. *)
Definition execute_shell_command (command : string) : M W Z :=
  cwd ← ext_read (os_getcwd X);
  path ← ext_read (environ_path X);
  let path_env_var := path +:+ ":" +:+ cwd in
  let args := ["bash"; "-c"; command] in
  _ ← emit (SubprocessRun args);
  res ← ext_try (subprocess_run X args cwd path_env_var);
  if returncode res =? 0 then
    let sh_out := strip (stdout res) in
    _ ← logger_info sh_out;
    mret 0
  else
    let status_code := returncode res in
    _ ← emit (StderrWrite (stdout res));
    let exception_message :=
      "A Sub-Process call Exception occurred." +:+ newline
      +:+ "CalledProcessError" +:+ ": " +:+ dquote
      +:+ str_called_process_error X args res +:+ dquote
      +:+ ".  Traceback: " +:+ dquote +:+ format_exc X args res +:+ dquote +:+ "." in
    _ ← logger_error exception_message;
    mret status_code.

(** ** build_gallery *)

Definition importlib_import_module (name package : string) : M W module_object :=
  _ ← emit (ImportModule name package);
  ext_try (import_module X name package).

(** [f'pip install "{req}"'] *)
Definition pip_install_command (req : pyval) : string :=
  "pip install " +:+ dquote +:+ py_str req +:+ dquote.

(** The body of [for req in requirements_dict[...]["requirements"]]: the
    status code of the installation is dropped. *)
Definition install_requirement (req : pyval) : M W unit :=
  _ ← logger_debug ("Executing command: '" +:+ pip_install_command req +:+ "'");
  _ ← execute_shell_command (pip_install_command req);
  mret tt.

Definition install_requirements (info : RequirementsInfo) : M W unit :=
  for_each (requirements info) install_requirement.

(** The body of [for expectation_module in expectations_module.__all__],
    and of its twin for the metrics, which differs in the package prefix
    only. *)
Definition load_module (prefix : string)
    (requirements_dict : gmap string RequirementsInfo) (expectation_module : string)
  : M W unit :=
  _ ← match requirements_dict !! expectation_module with
      | Some info =>
          _ ← logger_info ("Loading dependencies for module " +:+ expectation_module);
          install_requirements info
      | None => mret tt
      end;
  _ ← logger_debug ("Importing " +:+ expectation_module);
  _ ← importlib_import_module (prefix +:+ "." +:+ expectation_module)
        "great_expectations_experimental";
  mret tt.

Definition load_modules (prefix : string) (names : list string)
    (requirements_dict : gmap string RequirementsInfo) : M W unit :=
  for_each names (load_module prefix requirements_dict).

(** The body of [for file in files]. *)
Definition collect_file (root file : string)
    (requirements_dict : gmap string RequirementsInfo)
  : M W (gmap string RequirementsInfo) :=
  if endswith file ".py" && negb (String.eqb file "__init__.py") then
    _ ← logger_debug ("Getting requirements for module " +:+ file);
    let filepath := os_path_join root [file] in
    _ ← emit (OpenFile filepath);
    rt ← ext_read (runtime X);
    info ← lift (get_contrib_requirements rt filepath);
    mret (<[drop_last3 file := info]> requirements_dict)
  else mret requirements_dict.

(** [for root, dirs, files in os.walk(contrib_experimental_dir)] *)
Definition collect_requirements (contrib_experimental_dir : string)
  : M W (gmap string RequirementsInfo) :=
  _ ← emit (OsWalk contrib_experimental_dir);
  tree ← ext_read (os_walk X contrib_experimental_dir);
  for_fold tree (fun '(root, dirs, files) requirements_dict =>
    for_fold files (collect_file root) requirements_dict) ∅.

(** The body of [if include_contrib_experimental]. *)
Definition load_contrib_experimental : M W unit :=
  _ ← logger_info "Finding contrib modules";
  let contrib_experimental_dir :=
    os_path_join (script_dirname X)
      [".."; ".."; "contrib"; "experimental"; "great_expectations_experimental"] in
  _ ← emit (SysPathAppend contrib_experimental_dir);
  _ ← ext_call (fun w => (tt, sys_path_append X contrib_experimental_dir w));
  expectations_module ←
    importlib_import_module "expectations" "great_expectations_experimental";
  requirements_dict ← collect_requirements contrib_experimental_dir;
  _ ← load_modules "expectations" (module_all expectations_module) requirements_dict;
  metrics_module ← importlib_import_module "metrics" "great_expectations_experimental";
  load_modules "metrics" (module_all metrics_module) requirements_dict.

(** [set(all_expectations)] or [set(all_expectations) - set(core_expectations)],
    as the names it holds. *)
Definition build_expectations_of (include_core : bool)
    (core_expectations all_expectations : list string) : list string :=
  if include_core then all_expectations
  else filter (fun e => e ∉ core_expectations) all_expectations.

(** The body of [for expectation in build_expectations]. *)
Definition diagnose (expectation : string) (gallery_info : gmap string D)
  : M W (gmap string D) :=
  _ ← logger_debug ("Running diagnostics for expectation: " +:+ expectation);
  _ ← emit (RunDiagnostics expectation);
  diagnostics ← ext_try (run_diagnostics X expectation);
  mret (<[expectation := diagnostics]> gallery_info).

Definition build_gallery (include_core include_contrib_experimental : bool)
  : M W (gmap string D) :=
  _ ← logger_info "Getting base registered expectations list";
  _ ← emit (ImportStatement "great_expectations");
  _ ← ext_try (import_great_expectations X);
  _ ← emit ListRegistered;
  core_expectations ← ext_read (list_registered_expectation_implementations X);
  _ ← (if include_contrib_experimental then load_contrib_experimental else mret tt);
  _ ← emit ListRegistered;
  all_expectations ← ext_read (list_registered_expectation_implementations X);
  let build_expectations :=
    build_expectations_of include_core core_expectations all_expectations in
  _ ← logger_info ("Preparing to build gallery metadata for expectations: "
                    +:+ py_str (VSet (VStr <$> build_expectations)));
  for_fold (name_set_iteration X build_expectations) diagnose ∅.

(** *** Vocabulary for the orchestrator *)

(** What the installer answers to [command] in world [w]. *)
Definition shell_result (command : string) (w : W) : result CompletedProcess :=
  fst (subprocess_run X ["bash"; "-c"; command] (os_getcwd X w)
         (environ_path X w +:+ ":" +:+ os_getcwd X w) w).

(** The world the installer leaves after [command] in world [w]. *)
Definition shell_world (command : string) (w : W) : W :=
  snd (subprocess_run X ["bash"; "-c"; command] (os_getcwd X w)
         (environ_path X w +:+ ":" +:+ os_getcwd X w) w).

(** The names the registry reports at the start of a run. *)
Definition core_expectations_of (st : State W) : list string :=
  list_registered_expectation_implementations X
    (snd (import_great_expectations X (world st))).

(** The installations and imports that the loop over [names] is to make:
    for each name the installation of every requirement found for it,
    then the import of its module. *)
Definition planned_actions (prefix : string) (names : list string)
    (requirements_dict : gmap string RequirementsInfo) : list event :=
  concat (map (fun name =>
    match requirements_dict !! name with
    | Some info =>
        map (fun req => SubprocessRun ["bash"; "-c"; pip_install_command req])
          (requirements info)
    | None => []
    end ++ [ImportModule (prefix +:+ "." +:+ name) "great_expectations_experimental"])
    names).


End Orchestrator.

(** ** Sample files and a sample world *)

Definition requirements_literal (reqs : list string) : expr :=
  Dict [Some (Constant (CStr "requirements"))] [List (map (fun r => Constant (CStr r)) reqs)].

(** [class Foo:] with [library_metadata = {"requirements": ["numpy>=1.20", "pandas"]}] *)
Definition foo_file : py_module :=
  [ClassDef "Foo" [] [] [Assign [Name "library_metadata"]
                           (requirements_literal ["numpy>=1.20"; "pandas"])] []].

(** [class Foo: pass] *)
Definition plain_class_file : py_module := [ClassDef "Foo" [] [] [Pass] []].

(** A plugin with an import, a base class, three requirements and a method. *)
Definition expect_foo_file : py_module :=
  [ImportFrom (Some "great_expectations.expectations.expectation") ["Expectation"];
   Import ["scipy"];
   ClassDef "ExpectFoo" [Name "Expectation"] []
     [Assign [Name "library_metadata"]
        (Dict [Some (Constant (CStr "maturity")); Some (Constant (CStr "requirements"))]
              [Constant (CStr "experimental");
               List [Constant (CStr "numpy>=1.20"); Constant (CStr "pandas");
                     Constant (CStr "scipy")]]);
      FunctionDef "validate" [Return (Some (Constant (CBool true)))] [] None] []].

(** [class Foo:] with [library_metadata = REQUIREMENTS], a variable. *)
Definition variable_metadata_file : py_module :=
  [Assign [Name "REQUIREMENTS"] (requirements_literal ["numpy"]);
   ClassDef "Foo" [] [] [Assign [Name "library_metadata"] (Name "REQUIREMENTS")] []].

(** Two classes with their own requirements. *)
Definition first_class : stmt :=
  ClassDef "A" [] [] [Assign [Name "library_metadata"] (requirements_literal ["numpy"])] [].
Definition second_class : stmt :=
  ClassDef "B" [Name "A"] []
    [Expr (Constant (CStr "docstring"));
     Assign [Name "library_metadata"] (requirements_literal ["pandas"; "scipy"])] [].
Definition two_class_file : py_module :=
  [Import ["os"]; first_class; Expr (Call (Name "print") [] []); second_class; Pass].

(** [library_metadata = {"maturity": "experimental"}] *)
Definition maturity_only : expr :=
  Dict [Some (Constant (CStr "maturity"))] [Constant (CStr "experimental")].

(** A runtime over a table of files; a set is iterated last element first. *)
Definition table_runtime (files : list (string * py_module)) : Runtime :=
  {| open_and_parse := fun filepath =>
       match list_find (fun entry => String.eqb (fst entry) filepath) files with
       | Some (_, (_, tree)) => Ok tree
       | None => Raise (OtherError "FileNotFoundError")
       end;
     set_iteration := fun elts => reverse elts |}.

Definition sample_dir : string :=
  "/repo/assets/scripts/../../contrib/experimental/great_expectations_experimental".

(** A world is the list of registered names.  The plugin directory holds
    [expectations/expect_foo.py]; the aggregator [expectations] lists
    [expect_foo] and [expect_bar]; importing [expectations.<name>] registers
    [<name>]; installing [pandas] fails with status 1. *)
Definition sample_externals : Externals (list string) nat :=
  {| runtime := fun _ =>
       table_runtime [(sample_dir +:+ "/expectations/expect_foo.py", expect_foo_file)];
     script_dirname := "/repo/assets/scripts";
     str_other := fun _ => "<object>";
     os_getcwd := fun _ => "/repo";
     environ_path := fun _ => "/usr/bin";
     import_great_expectations := fun w => (Ok tt, w);
     list_registered_expectation_implementations := fun w => w;
     sys_path_append := fun _ w => w;
     import_module := fun name _ w =>
       if String.eqb name "expectations"
       then (Ok {| module_all := ["expect_foo"; "expect_bar"] |}, w)
       else if String.eqb name "metrics" then (Ok {| module_all := [] |}, w)
       else if String.prefix "expectations." name
       then (Ok {| module_all := [] |},
             w ++ [String.substring 13 (String.length name - 13) name])
       else (Raise (OtherError "ModuleNotFoundError"), w);
     os_walk := fun top _ =>
       [(top, ["expectations"], ["__init__.py"]);
        (top +:+ "/expectations", [], ["__init__.py"; "expect_foo.py"; "notes.txt"])];
     subprocess_run := fun args _ _ w =>
       if bool_decide (args = ["bash"; "-c"; "pip install " +:+ dquote +:+ "pandas" +:+ dquote])
       then (Ok {| returncode := 1; stdout := "ERROR: no matching distribution";
                   stderr := EmptyString |}, w)
       else (Ok {| returncode := 0; stdout := " Successfully installed ";
                   stderr := EmptyString |}, w);
     str_called_process_error := fun _ _ => "Command returned non-zero exit status 1.";
     format_exc := fun _ _ => "Traceback (most recent call last): ...";
     name_set_iteration := fun names => reverse names;
     run_diagnostics := fun name w => (Ok (String.length name), w) |}.

Definition sample_state : State (list string) :=
  {| world := ["expect_column_to_exist"; "expect_column_values_to_be_unique"];
     events := [] |}.

(** The gallery of the sample world when only the core is asked for. *)
Definition sample_core_gallery : gmap string nat :=
  match fst (build_gallery sample_externals true false sample_state) with
  | Ok gallery => gallery
  | Raise _ => ∅
  end.

(** What the extractor finds in the sample plugin directory. *)
Definition sample_requirements_dict : gmap string RequirementsInfo :=
  {[ "expect_foo" := {| classes := chars "ExpectFoo";
                        requirements := [VStr "numpy>=1.20"; VStr "pandas"; VStr "scipy"] |} ]}.

(** ** Vocabulary of the statements below *)

#[global] Instance result_fmap : FMap result := fun A B f m =>
  match m with
  | Ok a => Ok (f a)
  | Raise e => Raise e
  end.

Definition is_class_def (s : stmt) : bool :=
  match s with
  | ClassDef _ _ _ _ _ => true
  | _ => false
  end.

Definition is_name (e : expr) : bool :=
  match e with
  | Name _ => true
  | _ => false
  end.

(** An assignment statement all of whose targets are simple names. *)
Definition simple_name_assignment (n : node) : bool :=
  match n with
  | NStmt (Assign targets _) => forallb is_name targets
  | _ => false
  end.

(** A matched [library_metadata] assignment: every target is a simple name
    and one of them is [library_metadata]. *)
Definition node_matches (n : node) : bool :=
  match n with
  | NStmt (Assign targets _) =>
      forallb is_name targets
      && existsb (fun t => match t with
                           | Name id => String.eqb id "library_metadata"
                           | _ => false
                           end) targets
  | _ => false
  end.

(** The result of an extraction that went before, put in front. *)
Definition prepend (cls : list string) (reqs : list pyval) (info : RequirementsInfo)
  : RequirementsInfo :=
  {| classes := cls ++ classes info; requirements := reqs ++ requirements info |}.

(** The extractor in the words of its description: in a top-level class,
    look at the assignment statements whose targets are simple names, and
    at nothing else. *)
Definition simple_name_assignments (child : stmt) : list node :=
  filter (fun n => simple_name_assignment n = true) (walk (NStmt child)).

Definition scan_child_simple (rt : Runtime) (child : stmt) (info : RequirementsInfo)
  : result RequirementsInfo :=
  match child with
  | ClassDef name _ _ _ _ =>
      scan_nodes rt (simple_name_assignments child)
        {| classes := classes info ++ chars name; requirements := requirements info |}
  | _ => Ok info
  end.

Fixpoint scan_children_simple (rt : Runtime) (children : list stmt)
    (info : RequirementsInfo) : result RequirementsInfo :=
  match children with
  | [] => Ok info
  | child :: rest =>
      info' ← scan_child_simple rt child info; scan_children_simple rt rest info'
  end.

Definition extract_from_simple_assignments (rt : Runtime) (filepath : string)
  : result RequirementsInfo :=
  tree ← open_and_parse rt filepath;
  scan_children_simple rt tree {| classes := []; requirements := [] |}.

(** The events that install or import: runs of the installer and calls of
    [importlib.import_module]. *)
Definition is_action (e : event) : bool :=
  match e with
  | SubprocessRun _ | ImportModule _ _ => true
  | _ => false
  end.

(** The events that only report: log records and writes to [sys.stderr]. *)
Definition is_report (e : event) : bool :=
  match e with
  | Logged _ _ | StderrWrite _ => true
  | _ => false
  end.

(** The events that reach for the experimental plugins or the installer. *)
Definition touches_contrib (e : event) : bool :=
  match e with
  | SubprocessRun _ | SysPathAppend _ | ImportModule _ _ | OsWalk _ | OpenFile _ => true
  | _ => false
  end.



(** A step that only adds events, all of them satisfying [P]. *)
Definition emits {W A} (P : event -> Prop) (m : M W A) : Prop :=
  forall st, exists evs, events (snd (m st)) = events st ++ evs /\ Forall P evs.

(** ** Vocabulary and samples of the further properties *)

(** The names of the classes defined at the top level of a module. *)
Fixpoint top_level_class_names (tree : py_module) : list string :=
  match tree with
  | [] => []
  | ClassDef name _ _ _ _ :: rest => name :: top_level_class_names rest
  | _ :: rest => top_level_class_names rest
  end.

(** The class definitions among the top-level statements. *)
Fixpoint top_level_classes (tree : py_module) : py_module :=
  match tree with
  | [] => []
  | child :: rest =>
      if is_class_def child then child :: top_level_classes rest
      else top_level_classes rest
  end.

(** A run of the installer. *)
Definition is_run (e : event) : bool :=
  match e with
  | SubprocessRun _ => true
  | _ => false
  end.

(** A look at the plugin directory: its walk, or the opening of a file. *)
Definition is_file_access (e : event) : bool :=
  match e with
  | OsWalk _ | OpenFile _ => true
  | _ => false
  end.

(** A step whose new events come in two phases: first events satisfying
    [P], then events satisfying [Q]. *)
Definition phased {W A} (P Q : event -> Prop) (m : M W A) : Prop :=
  forall st, exists first second,
    events (snd (m st)) = events st ++ first ++ second
    /\ Forall P first /\ Forall Q second.

(** [class Plugin:] with [library_metadata = {"requirements": "numpy"}], a
    string where a list is meant, after a module-level assignment. *)
Definition string_requirements_file : py_module :=
  [Assign [Name "library_metadata"] (requirements_literal ["scipy"]);
   ClassDef "Plugin" [Name "Base"] []
     [Expr (Constant (CStr "docstring"));
      Assign [Name "library_metadata"]
        (Dict [Some (Constant (CStr "requirements"))] [Constant (CStr "numpy")]);
      FunctionDef "run" [Pass] [] None] []].

(** [class Plugin:] with [library_metadata = {"requirements": None}]. *)
Definition none_requirements_file : py_module :=
  [ClassDef "Plugin" [] []
     [Assign [Name "library_metadata"]
        (Dict [Some (Constant (CStr "requirements"))] [Constant CNone])] []].

(** [class Plugin:] with [library_metadata = ["numpy"]], a list where a
    dictionary is meant. *)
Definition list_metadata_file : py_module :=
  [ClassDef "Plugin" [] []
     [Assign [Name "library_metadata"] (List [Constant (CStr "numpy")])] []].

(** The sample world with a registry entry whose diagnostics raise. *)
Definition broken_diagnostics_externals : Externals (list string) nat :=
  {| runtime := runtime sample_externals;
     script_dirname := script_dirname sample_externals;
     str_other := str_other sample_externals;
     os_getcwd := os_getcwd sample_externals;
     environ_path := environ_path sample_externals;
     import_great_expectations := import_great_expectations sample_externals;
     list_registered_expectation_implementations :=
       list_registered_expectation_implementations sample_externals;
     sys_path_append := sys_path_append sample_externals;
     import_module := import_module sample_externals;
     os_walk := os_walk sample_externals;
     subprocess_run := subprocess_run sample_externals;
     str_called_process_error := str_called_process_error sample_externals;
     format_exc := format_exc sample_externals;
     name_set_iteration := name_set_iteration sample_externals;
     run_diagnostics := fun name w =>
       if String.eqb name "expect_column_to_exist"
       then (Raise (OtherError "RuntimeError"), w)
       else (Ok (String.length name), w) |}.

(** The sample world with a plugin file whose metadata is a variable. *)
Definition broken_plugin_externals : Externals (list string) nat :=
  {| runtime := fun _ =>
       table_runtime
         [(sample_dir +:+ "/expectations/expect_foo.py", variable_metadata_file)];
     script_dirname := script_dirname sample_externals;
     str_other := str_other sample_externals;
     os_getcwd := os_getcwd sample_externals;
     environ_path := environ_path sample_externals;
     import_great_expectations := import_great_expectations sample_externals;
     list_registered_expectation_implementations :=
       list_registered_expectation_implementations sample_externals;
     sys_path_append := sys_path_append sample_externals;
     import_module := import_module sample_externals;
     os_walk := os_walk sample_externals;
     subprocess_run := subprocess_run sample_externals;
     str_called_process_error := str_called_process_error sample_externals;
     format_exc := format_exc sample_externals;
     name_set_iteration := name_set_iteration sample_externals;
     run_diagnostics := run_diagnostics sample_externals |}.

(** A file with one top-level class, in whose body one assignment to simple
    names, [library_metadata] among them, stands among statements that hold
    no matched assignment. *)
Definition one_metadata_class (tree : py_module) (name : string) (ids : list string)
    (value : expr) : Prop :=
  exists before after bases kws pre post decs,
    tree = before
           ++ ClassDef name bases kws (pre ++ Assign (map Name ids) value :: post) decs
           :: after
    /\ Forall (fun s => is_class_def s = false) before
    /\ Forall (fun s => is_class_def s = false) after
    /\ (forall s d, In s (pre ++ post) -> descendant (NStmt s) d -> node_matches d = false)
    /\ "library_metadata" ∈ ids.

(** A value that cannot be iterated. *)
Definition not_iterable (v : pyval) : bool :=
  match v with
  | VNone | VEllipsis | VBool _ | VInt _ => true
  | _ => false
  end.

(** A step that raises from every state, having only added events that
    satisfy [P]. *)
Definition aborts {W A} (P : event -> Prop) (m : M W A) : Prop :=
  forall st, (exists e, fst (m st) = Raise e)
             /\ exists evs, events (snd (m st)) = events st ++ evs /\ Forall P evs.

(** The directory of the experimental plugins, as [build_gallery] joins it. *)
Definition contrib_experimental_dir_of {W D} (X : Externals W D) : string :=
  os_path_join (script_dirname X)
    [".."; ".."; "contrib"; "experimental"; "great_expectations_experimental"].

(** What holds of every entry of the mapping of requirements while it is
    built from the walk [tree] in world [w]: its key is the name, without
    [.py], of a listed file other than [__init__.py], and its value is the
    extraction of that file. *)
Definition entry_of_walk {W D} (X : Externals W D) (w : W)
    (tree : list (string * list string * list string))
    (requirements_dict : gmap string RequirementsInfo) : Prop :=
  forall key info, requirements_dict !! key = Some info ->
    key <> "__init__"
    /\ exists root dirs files,
         In (root, dirs, files) tree
         /\ In (key +:+ ".py") files
         /\ get_contrib_requirements (runtime X w) (os_path_join root [key +:+ ".py"])
            = Ok info.

(** * Properties *)

(** ** [ast.walk] visits every node: the fuel never runs out *)

Lemma sum_list_with_stmts (l : list stmt) :
  sum_list_with node_size (map NStmt l) = sum_list_with stmt_size l.
Proof. induction l as [|x l IH]; simpl; [reflexivity | now rewrite IH]. Qed.

Lemma sum_list_with_exprs (l : list expr) :
  sum_list_with node_size (map NExpr l) = sum_list_with expr_size l.
Proof. induction l as [|x l IH]; simpl; [reflexivity | now rewrite IH]. Qed.

Lemma sum_list_with_keywords (l : list keyword) :
  sum_list_with node_size (map NKeyword l) = sum_list_with keyword_size l.
Proof. induction l as [|x l IH]; simpl; [reflexivity | now rewrite IH]. Qed.

Lemma sum_list_with_option_nodes (o : option expr) :
  sum_list_with node_size (option_nodes o) = option_size o.
Proof. destruct o; simpl; lia. Qed.

Lemma sum_list_with_keys (keys : list (option expr)) :
  sum_list_with node_size (concat (map option_nodes keys))
  = sum_list_with (fun k => match k with Some e => expr_size e | None => 0%nat end) keys.
Proof.
  induction keys as [|[e|] keys IH]; simpl; [reflexivity | |]; now rewrite <- IH.
Qed.

Lemma queue_size_app (q r : list node) :
  queue_size (q ++ r) = (queue_size q + queue_size r)%nat.
Proof. apply sum_list_with_app. Qed.

Lemma node_size_pos (n : node) : (0 < node_size n)%nat.
Proof. destruct n as [[]|[]|[]]; simpl; lia. Qed.

Ltac size_arith :=
  unfold queue_size;
  cbn [node_size stmt_size expr_size keyword_size iter_child_nodes sum_list_with];
  rewrite ?sum_list_with_app; cbn [sum_list_with];
  rewrite ?sum_list_with_app, ?sum_list_with_stmts, ?sum_list_with_exprs,
    ?sum_list_with_keywords, ?sum_list_with_option_nodes, ?sum_list_with_keys;
  cbn [node_size]; lia.

Lemma node_size_children (n : node) :
  node_size n = S (queue_size (iter_child_nodes n)).
Proof.
  destruct n as [s|e|[arg v]].
  - destruct s; size_arith.
  - destruct e; size_arith.
  - size_arith.
Qed.

Lemma queue_size_zero (q : list node) : queue_size q = 0%nat -> q = [].
Proof.
  destruct q as [|n q]; [reflexivity|].
  unfold queue_size; simpl. pose proof (node_size_pos n). lia.
Qed.

Lemma queue_size_step (n : node) (rest : list node) :
  queue_size (n :: rest) = S (queue_size (rest ++ iter_child_nodes n)).
Proof.
  rewrite queue_size_app. unfold queue_size at 1. simpl.
  rewrite (node_size_children n). unfold queue_size. lia.
Qed.

(** Any fuel that covers the nodes still to come gives the same walk. *)
Lemma walk_queue_fuel (fuel fuel' : nat) (todo : list node) :
  (queue_size todo <= fuel)%nat -> (queue_size todo <= fuel')%nat ->
  walk_queue fuel todo = walk_queue fuel' todo.
Proof.
  revert fuel' todo. induction fuel as [|fuel IH]; intros fuel' todo H H'.
  - assert (todo = []) as -> by (apply queue_size_zero; lia).
    now destruct fuel'.
  - destruct todo as [|n rest]; [now destruct fuel'|].
    rewrite queue_size_step in H, H'.
    destruct fuel' as [|fuel']; [lia|]. simpl. f_equal.
    apply IH; lia.
Qed.

(** With that fuel the walk yields as many nodes as the queue holds below
    it: it stops on an empty queue. *)
Lemma walk_queue_length (fuel : nat) (todo : list node) :
  (queue_size todo <= fuel)%nat -> length (walk_queue fuel todo) = queue_size todo.
Proof.
  revert todo. induction fuel as [|fuel IH]; intros todo H.
  - assert (todo = []) as -> by (apply queue_size_zero; lia). reflexivity.
  - destruct todo as [|n rest]; [reflexivity|].
    rewrite queue_size_step in *. simpl. f_equal. apply IH. lia.
Qed.

Lemma walk_length (n : node) : length (walk n) = node_size n.
Proof.
  unfold walk. rewrite walk_queue_length; unfold queue_size; simpl; lia.
Qed.

(** The queue itself heads the walk, followed by the walk of the children. *)
Lemma walk_queue_level (fuel : nat) (q r : list node) :
  (length q <= fuel)%nat ->
  walk_queue fuel (q ++ r)
  = q ++ walk_queue (fuel - length q) (r ++ concat (map iter_child_nodes q)).
Proof.
  revert fuel r. induction q as [|n q IH]; intros fuel r H; simpl in *.
  - now rewrite Nat.sub_0_r, app_nil_r.
  - destruct fuel as [|fuel]; [lia|]. simpl. f_equal.
    rewrite <- app_assoc, IH by lia. now rewrite <- app_assoc.
Qed.

Lemma length_le_queue_size (q : list node) : (length q <= queue_size q)%nat.
Proof.
  induction q as [|n q IH]; simpl; [lia|].
  unfold queue_size in *. simpl. pose proof (node_size_pos n). lia.
Qed.

Lemma walk_unfold (n : node) :
  walk n = n :: iter_child_nodes n
             ++ walk_queue (node_size n - 1 - length (iter_child_nodes n))
                  (concat (map iter_child_nodes (iter_child_nodes n))).
Proof.
  unfold walk. rewrite (node_size_children n). simpl. f_equal.
  pose proof (length_le_queue_size (iter_child_nodes n)).
  rewrite <- (app_nil_r (iter_child_nodes n)) at 2.
  rewrite walk_queue_level by lia. simpl. now rewrite Nat.sub_0_r.
Qed.

(** The walk of a queue yields the nodes at and below the nodes of the
    queue, and nothing else. *)
Lemma walk_queue_spec (fuel : nat) (todo : list node) (d : node) :
  (queue_size todo <= fuel)%nat ->
  In d (walk_queue fuel todo) <-> exists n, In n todo /\ descendant n d.
Proof.
  revert todo. induction fuel as [|fuel IH]; intros todo H.
  - assert (todo = []) as -> by (apply queue_size_zero; lia).
    simpl. split; [intros [] | intros (n & [] & _)].
  - destruct todo as [|n rest]; [simpl; split; [intros [] | intros (m & [] & _)]|].
    rewrite queue_size_step in H. simpl. rewrite IH by lia. split.
    + intros [<-|(m & Hm & Hd)].
      * exists n. split; [now left | constructor].
      * apply in_app_or in Hm as [Hm|Hm].
        -- exists m. split; [now right | assumption].
        -- exists n. split; [now left | now apply descendant_child with m].
    + intros (m & [<-|Hm] & Hd).
      * inversion Hd as [|? c ? Hc Hcd]; subst; [now left|].
        right. exists c. split; [apply in_or_app; now right | assumption].
      * right. exists m. split; [apply in_or_app; now left | assumption].
Qed.

(** [ast.walk(node)] yields [node] and the nodes below it. *)
Lemma walk_spec (n d : node) : In d (walk n) <-> descendant n d.
Proof.
  unfold walk. rewrite walk_queue_spec by (unfold queue_size; simpl; lia). split.
  - now intros (m & [<-|[]] & Hd).
  - intros Hd. exists n. split; [now left | assumption].
Qed.

(** The root and its children are in the walk. *)
Lemma walk_root (n : node) : In n (walk n).
Proof. rewrite walk_unfold. now left. Qed.

Lemma walk_child (n c : node) : In c (iter_child_nodes n) -> In c (walk n).
Proof. intros H. rewrite walk_unfold. right. apply in_or_app. now left. Qed.

(** A statement of a class body is in the walk of the class. *)
Lemma walk_class_body name bases kws body decs (s : stmt) :
  In s body -> In (NStmt s) (walk (NStmt (ClassDef name bases kws body decs))).
Proof.
  intros H. apply walk_child. simpl.
  apply in_or_app; right. apply in_or_app; right. apply in_or_app; left.
  now apply in_map.
Qed.

(** ** The scan of one node *)

Lemma target_ids_names (ids : list string) : target_ids (map Name ids) = Ok ids.
Proof.
  unfold target_ids.
  assert (target_id_list (map Name ids) = Ok ids) as ->; [|reflexivity].
  induction ids as [|id ids IH]; simpl; [reflexivity|]. now rewrite IH.
Qed.

(** One target that is not a name empties the whole list of names. *)
Lemma target_ids_pattern (targets : list expr) :
  Exists (fun t => is_name t = false) targets -> target_ids targets = Ok [].
Proof.
  unfold target_ids. intros H.
  assert (target_id_list targets = Raise AttributeError) as ->; [|reflexivity].
  induction H as [t rest Ht | t rest _ IH]; simpl.
  - destruct t; simpl in *; try reflexivity. discriminate.
  - rewrite IH. destruct t; reflexivity.
Qed.

Lemma all_names (targets : list expr) :
  forallb is_name targets = true -> exists ids, targets = map Name ids.
Proof.
  induction targets as [|t rest IH]; simpl; intros H.
  - now exists [].
  - apply andb_prop in H as [Ht Hrest]. destruct (IH Hrest) as [ids ->].
    destruct t; try discriminate. now exists (id :: ids).
Qed.

Lemma not_all_names (targets : list expr) :
  forallb is_name targets = false -> Exists (fun t => is_name t = false) targets.
Proof.
  induction targets as [|t rest IH]; simpl; intros H; [discriminate|].
  destruct (is_name t) eqn:Ht; simpl in H.
  - right. now apply IH.
  - now left.
Qed.

Lemma forallb_is_name_names (ids : list string) : forallb is_name (map Name ids) = true.
Proof. induction ids; simpl; auto. Qed.

Lemma existsb_library_metadata (ids : list string) :
  existsb (fun t => match t with
                    | Name id => String.eqb id "library_metadata"
                    | _ => false
                    end) (map Name ids) = bool_decide ("library_metadata" ∈ ids).
Proof.
  induction ids as [|id ids IH].
  - reflexivity.
  - cbn [map existsb]. rewrite IH.
    destruct (String.eqb_spec id "library_metadata") as [->|Hne]; cbn [orb].
    + symmetry. apply bool_decide_eq_true_2. left.
    + apply eq_true_iff_eq. rewrite !bool_decide_eq_true.
      rewrite elem_of_cons. split; [now right | intros [Heq|Hin]; [congruence | assumption]].
Qed.

Lemma node_matches_spec (n : node) :
  node_matches n = true <->
  exists ids value, n = NStmt (Assign (map Name ids) value) /\ "library_metadata" ∈ ids.
Proof.
  split.
  - destruct n as [s| |]; try discriminate. destruct s; try discriminate. simpl.
    intros H. apply andb_prop in H as [Hall Hex].
    destruct (all_names _ Hall) as [ids ->].
    rewrite existsb_library_metadata in Hex. apply bool_decide_eq_true in Hex.
    now exists ids, value.
  - intros (ids & value & -> & Hin). simpl.
    rewrite forallb_is_name_names, existsb_library_metadata. simpl.
    now apply bool_decide_eq_true.
Qed.

(** A node that is not a matched assignment leaves the result as it is. *)
Lemma scan_node_unmatched (rt : Runtime) (n : node) (info : RequirementsInfo) :
  node_matches n = false -> scan_node rt n info = Ok info.
Proof.
  intros H. destruct n as [s| |]; try reflexivity. destruct s; try reflexivity.
  simpl in *. destruct (forallb is_name targets) eqn:Hall.
  - destruct (all_names _ Hall) as [ids ->]. rewrite target_ids_names. simpl.
    rewrite existsb_library_metadata in H. simpl in H. now rewrite H.
  - apply not_all_names in Hall. now rewrite (target_ids_pattern _ Hall).
Qed.

(** A matched assignment evaluates its right-hand side, looks the key up
    and extends the list. *)
Lemma scan_node_matched (rt : Runtime) (ids : list string) (value : expr)
    (info : RequirementsInfo) :
  "library_metadata" ∈ ids ->
  scan_node rt (NStmt (Assign (map Name ids) value)) info
  = (library_metadata ← literal_eval value;
     found ← py_get library_metadata (VStr "requirements") (VList []);
     reqs ← list_iadd rt (requirements info) found;
     Ok {| classes := classes info; requirements := reqs |}).
Proof.
  intros H. simpl. rewrite target_ids_names. simpl.
  now rewrite bool_decide_eq_true_2.
Qed.

Lemma scan_node_pattern (rt : Runtime) (targets : list expr) (value : expr)
    (info : RequirementsInfo) :
  Exists (fun t => is_name t = false) targets ->
  scan_node rt (NStmt (Assign targets value)) info = Ok info.
Proof.
  intros H. apply scan_node_unmatched. simpl.
  assert (forallb is_name targets = false) as ->; [|reflexivity].
  induction H as [t rest Ht | t rest _ IH]; simpl.
  - now rewrite Ht.
  - rewrite IH. apply andb_false_r.
Qed.

Lemma key_eq_str (k : pyval) (s : string) : key_eq k (VStr s) = true -> k = VStr s.
Proof.
  destruct k; simpl; try discriminate.
  intros H. apply String.eqb_eq in H. now subst.
Qed.

Lemma dict_get_absent (items : list (pyval * pyval)) (s : string) (default : pyval) :
  ~ In (VStr s) (map fst items) -> dict_get items (VStr s) default = default.
Proof.
  induction items as [|[k v] items IH]; simpl; intros H; [reflexivity|].
  destruct (key_eq k (VStr s)) eqn:Hk.
  - apply key_eq_str in Hk. subst. exfalso. apply H. now left.
  - apply IH. intros Hin. apply H. now right.
Qed.

Lemma info_eta (info : RequirementsInfo) :
  {| classes := classes info; requirements := requirements info |} = info.
Proof. now destruct info. Qed.

(** ** The loops of the extractor *)

Lemma scan_nodes_app (rt : Runtime) (l1 l2 : list node) (info : RequirementsInfo) :
  scan_nodes rt (l1 ++ l2) info = (info' ← scan_nodes rt l1 info; scan_nodes rt l2 info').
Proof.
  revert info. induction l1 as [|n l1 IH]; intros info; simpl; [reflexivity|].
  destruct (scan_node rt n info) as [info'|e]; simpl; [apply IH | reflexivity].
Qed.

Lemma scan_children_app (rt : Runtime) (t1 t2 : list stmt) (info : RequirementsInfo) :
  scan_children rt (t1 ++ t2) info
  = (info' ← scan_children rt t1 info; scan_children rt t2 info').
Proof.
  revert info. induction t1 as [|c t1 IH]; intros info; simpl; [reflexivity|].
  destruct (scan_child rt c info) as [info'|e]; simpl; [apply IH | reflexivity].
Qed.

Lemma scan_nodes_unmatched (rt : Runtime) (nodes : list node) (info : RequirementsInfo) :
  (forall n, In n nodes -> node_matches n = false) -> scan_nodes rt nodes info = Ok info.
Proof.
  induction nodes as [|n nodes IH]; intros H; simpl; [reflexivity|].
  rewrite scan_node_unmatched by (apply H; now left). simpl.
  apply IH. intros m Hm. apply H. now right.
Qed.

Lemma scan_nodes_raises (rt : Runtime) (nodes : list node) (n : node) :
  In n nodes ->
  (forall info, exists e, scan_node rt n info = Raise e) ->
  forall info, exists e, scan_nodes rt nodes info = Raise e.
Proof.
  intros Hin Hn. induction nodes as [|m nodes IH]; [destruct Hin|].
  intros info. simpl. destruct (scan_node rt m info) as [info'|e] eqn:Hm; simpl.
  - destruct Hin as [->|Hin].
    + destruct (Hn info) as [e He]. congruence.
    + now apply IH.
  - now exists e.
Qed.

Lemma scan_children_raises (rt : Runtime) (tree : list stmt) (child : stmt) :
  In child tree ->
  (forall info, exists e, scan_child rt child info = Raise e) ->
  forall info, exists e, scan_children rt tree info = Raise e.
Proof.
  intros Hin Hc. induction tree as [|c tree IH]; [destruct Hin|].
  intros info. simpl. destruct (scan_child rt c info) as [info'|e] eqn:Hm; simpl.
  - destruct Hin as [->|Hin].
    + destruct (Hc info) as [e He]. congruence.
    + now apply IH.
  - now exists e.
Qed.

Lemma scan_child_not_class (rt : Runtime) (s : stmt) (info : RequirementsInfo) :
  is_class_def s = false -> scan_child rt s info = Ok info.
Proof. destruct s; simpl; intros H; (reflexivity || discriminate). Qed.

Lemma scan_children_no_class (rt : Runtime) (tree : list stmt) (info : RequirementsInfo) :
  Forall (fun s => is_class_def s = false) tree -> scan_children rt tree info = Ok info.
Proof.
  induction 1 as [|s tree Hs _ IH]; simpl; [reflexivity|].
  now rewrite scan_child_not_class.
Qed.

Lemma scan_children_unmatched (rt : Runtime) (tree : list stmt) (info : RequirementsInfo) :
  (forall child n, In child tree -> is_class_def child = true ->
                   In n (walk (NStmt child)) -> node_matches n = false) ->
  exists cls, scan_children rt tree info
              = Ok {| classes := classes info ++ cls; requirements := requirements info |}.
Proof.
  revert info. induction tree as [|c tree IH]; intros info H; simpl.
  - exists []. now rewrite app_nil_r, info_eta.
  - destruct (is_class_def c) eqn:Hc.
    + destruct c; try discriminate. unfold scan_child.
      rewrite scan_nodes_unmatched by (intros n Hn; eapply H; eauto; now left). simpl.
      destruct (IH {| classes := classes info ++ chars name;
                      requirements := requirements info |}) as [cls Hcls].
      { intros child n Hin. apply H. now right. }
      rewrite Hcls. simpl. exists (chars name ++ cls). now rewrite app_assoc.
    + rewrite scan_child_not_class by assumption. simpl.
      apply IH. intros child n Hin. apply H. now right.
Qed.

(** What the loop finds is found among the assignments to simple names. *)
Lemma scan_nodes_filter (rt : Runtime) (nodes : list node) (info : RequirementsInfo) :
  scan_nodes rt nodes info
  = scan_nodes rt (filter (fun n => simple_name_assignment n = true) nodes) info.
Proof.
  revert info. induction nodes as [|n nodes IH]; intros info; [reflexivity|].
  rewrite filter_cons. destruct (decide (simple_name_assignment n = true)) as [Hs|Hs].
  - simpl. destruct (scan_node rt n info); simpl; [apply IH | reflexivity].
  - simpl. rewrite scan_node_unmatched; [apply IH|].
    destruct n as [s| |]; try reflexivity. destruct s; try reflexivity.
    simpl in *. apply not_true_is_false in Hs. now rewrite Hs.
Qed.

(** ** What went before is carried along unchanged *)

Lemma scan_node_prepend (rt : Runtime) (cls : list string) (reqs : list pyval)
    (n : node) (info : RequirementsInfo) :
  scan_node rt n (prepend cls reqs info) = prepend cls reqs <$> scan_node rt n info.
Proof.
  destruct (node_matches n) eqn:Hn.
  - apply node_matches_spec in Hn as (ids & value & -> & Hin).
    rewrite !scan_node_matched by assumption.
    destruct (literal_eval value) as [v|e]; [|reflexivity]. simpl.
    destruct (py_get v (VStr "requirements") (VList [])) as [found|e]; [|reflexivity].
    simpl. unfold prepend.
    destruct found; simpl; try reflexivity; now rewrite app_assoc.
  - now rewrite !scan_node_unmatched.
Qed.

Lemma scan_nodes_prepend (rt : Runtime) (cls : list string) (reqs : list pyval)
    (nodes : list node) (info : RequirementsInfo) :
  scan_nodes rt nodes (prepend cls reqs info) = prepend cls reqs <$> scan_nodes rt nodes info.
Proof.
  revert info. induction nodes as [|n nodes IH]; intros info; simpl; [reflexivity|].
  rewrite scan_node_prepend.
  destruct (scan_node rt n info) as [info'|e]; simpl; [apply IH | reflexivity].
Qed.

Lemma scan_child_prepend (rt : Runtime) (cls : list string) (reqs : list pyval)
    (child : stmt) (info : RequirementsInfo) :
  scan_child rt child (prepend cls reqs info) = prepend cls reqs <$> scan_child rt child info.
Proof.
  destruct child; try reflexivity. unfold scan_child.
  rewrite <- scan_nodes_prepend. f_equal. unfold prepend. simpl.
  now rewrite app_assoc.
Qed.

Lemma prepend_to_empty (info : RequirementsInfo) :
  prepend (classes info) (requirements info) {| classes := []; requirements := [] |} = info.
Proof. destruct info. unfold prepend. simpl. now rewrite !app_nil_r. Qed.

Lemma scan_node_classes (rt : Runtime) (n : node) (info info' : RequirementsInfo) :
  scan_node rt n info = Ok info' -> classes info' = classes info.
Proof.
  destruct (node_matches n) eqn:Hn.
  - apply node_matches_spec in Hn as (ids & value & -> & Hin).
    rewrite scan_node_matched by assumption.
    destruct (literal_eval value) as [v|]; [simpl|discriminate].
    destruct (py_get v _ _) as [found|]; [simpl|discriminate].
    destruct (list_iadd rt _ found); [simpl|discriminate].
    now intros [= <-].
  - rewrite scan_node_unmatched by assumption. now intros [= <-].
Qed.

Lemma scan_nodes_classes (rt : Runtime) (nodes : list node) (info info' : RequirementsInfo) :
  scan_nodes rt nodes info = Ok info' -> classes info' = classes info.
Proof.
  revert info. induction nodes as [|n nodes IH]; intros info; simpl.
  - now intros [= <-].
  - destruct (scan_node rt n info) as [info1|] eqn:H1; [simpl|discriminate].
    intros H. rewrite (IH _ H). eapply scan_node_classes; eauto.
Qed.

(** ** A class with one matched assignment in its body *)

Lemma children_not_stmt (n c : node) :
  (forall s, n <> NStmt s) -> In c (iter_child_nodes n) -> forall s, c <> NStmt s.
Proof.
  intros Hn Hc s ->. destruct n as [s'|e|[arg v]]; [now destruct (Hn s')| |].
  - destruct e; simpl in Hc;
      repeat match goal with
             | H : _ \/ _ |- _ => destruct H
             | H : In _ (_ ++ _) |- _ => apply in_app_or in H
             | H : In _ (map _ _) |- _ => apply in_map_iff in H as (? & ? & _)
             | H : In _ (concat _) |- _ => apply in_concat in H as (? & ? & ?)
             | H : In _ [] |- _ => destruct H
             | H : False |- _ => destruct H
             end; try discriminate.
    subst. destruct x0; simpl in *; [|contradiction].
    destruct H0 as [?|[]]. discriminate.
  - simpl in Hc. destruct Hc as [?|[]]. discriminate.
Qed.

(** Below a node that is no statement there is no statement. *)
Lemma descendant_not_stmt (n d : node) :
  descendant n d -> (forall s, n <> NStmt s) -> forall s, d <> NStmt s.
Proof.
  induction 1 as [n|n c d Hc _ IH]; intros Hn; [assumption|].
  apply IH. now apply children_not_stmt with n.
Qed.

Lemma node_matches_stmt (n : node) : node_matches n = true -> exists s, n = NStmt s.
Proof. destruct n as [s| |]; try discriminate. now exists s. Qed.

Lemma descendant_of_expr_unmatched (e : expr) (d : node) :
  descendant (NExpr e) d -> node_matches d = false.
Proof.
  intros H. destruct (node_matches d) eqn:Hd; [|reflexivity].
  apply node_matches_stmt in Hd as [s ->].
  now destruct (descendant_not_stmt _ _ H (fun s' => ltac:(discriminate)) s).
Qed.

Lemma descendant_of_keyword_unmatched (k : keyword) (d : node) :
  descendant (NKeyword k) d -> node_matches d = false.
Proof.
  intros H. destruct (node_matches d) eqn:Hd; [|reflexivity].
  apply node_matches_stmt in Hd as [s ->].
  now destruct (descendant_not_stmt _ _ H (fun s' => ltac:(discriminate)) s).
Qed.

Lemma queue_size_children (q : list node) :
  (queue_size (concat (map iter_child_nodes q)) + length q)%nat = queue_size q.
Proof.
  induction q as [|n q IH]; [reflexivity|].
  cbn [map concat length]. rewrite queue_size_app.
  unfold queue_size at 3. cbn [sum_list_with]. rewrite (node_size_children n).
  fold (queue_size q). lia.
Qed.

(** The walk of a node, level by level: the node, its children, and what
    lies below the children. *)
Lemma walk_below_children (n d : node) :
  In d (walk n) <->
  d = n \/ In d (iter_child_nodes n)
  \/ exists c g, In c (iter_child_nodes n) /\ In g (iter_child_nodes c) /\ descendant g d.
Proof.
  rewrite walk_unfold. cbn [In]. rewrite in_app_iff, walk_queue_spec.
  - split.
    + intros [<-|[H|(g & Hg & Hd)]]; [now left | right; now left |].
      right; right. apply in_concat in Hg as (l & Hl & Hg).
      apply in_map_iff in Hl as (c & <- & Hc). now exists c, g.
    + intros [->|[H|(c & g & Hc & Hg & Hd)]]; [now left | right; now left |].
      right; right. exists g. split; [|assumption].
      apply in_concat. exists (iter_child_nodes c). split; [now apply in_map | assumption].
  - pose proof (queue_size_children (iter_child_nodes n)).
    pose proof (node_size_children n). lia.
Qed.

Lemma scan_nodes_single (rt : Runtime) (l1 l2 : list node) (n : node)
    (info : RequirementsInfo) :
  (forall m, In m l1 -> node_matches m = false) ->
  (forall m, In m l2 -> node_matches m = false) ->
  scan_nodes rt (l1 ++ n :: l2) info = scan_node rt n info.
Proof.
  intros H1 H2. rewrite scan_nodes_app, scan_nodes_unmatched by assumption. simpl.
  destruct (scan_node rt n info); simpl; [now apply scan_nodes_unmatched | reflexivity].
Qed.

(** When the statements around an assignment in the body of a class hold no
    matched assignment, the scan of the class is the scan of that
    assignment. *)
Lemma class_with_one_assignment (rt : Runtime) (name : string) (bases : list expr)
    (kws : list keyword) (before after : list stmt) (decs : list expr)
    (targets : list expr) (value : expr) (info : RequirementsInfo) :
  (forall s d, In s (before ++ after) -> descendant (NStmt s) d -> node_matches d = false) ->
  scan_child rt (ClassDef name bases kws (before ++ Assign targets value :: after) decs) info
  = scan_node rt (NStmt (Assign targets value))
      {| classes := classes info ++ chars name; requirements := requirements info |}.
Proof.
  intros Hother. unfold scan_child. rewrite walk_unfold.
  cbn [iter_child_nodes]. rewrite map_app. cbn [map].
  match goal with
  | |- scan_nodes rt (?c :: (?b ++ ?k ++ (?p ++ ?a :: ?q) ++ ?d) ++ ?t) ?i = _ =>
      replace (c :: (b ++ k ++ (p ++ a :: q) ++ d) ++ t)
        with ((c :: b ++ k ++ p) ++ a :: (q ++ d ++ t))
        by (simpl; now rewrite <- !app_assoc);
      assert (forall m, In m t -> node_matches m = false) as Htail
  end.
  { intros m Hm. apply walk_queue_spec in Hm as (g & Hg & Hd).
    - apply in_concat in Hg as (l & Hl & Hg). apply in_map_iff in Hl as (c & <- & Hc).
      repeat (apply in_app_or in Hc as [Hc|Hc]).
      + apply in_map_iff in Hc as (e & <- & _).
        apply descendant_of_expr_unmatched with e. now apply descendant_child with g.
      + apply in_map_iff in Hc as (k & <- & _).
        apply descendant_of_keyword_unmatched with k. now apply descendant_child with g.
      + apply in_map_iff in Hc as (s & <- & Hs).
        apply (Hother s); [apply in_or_app; now left | now apply descendant_child with g].
      + destruct Hc as [<-|Hc].
        * simpl in Hg. apply in_app_or in Hg as [Hg|[<-|[]]].
          -- apply in_map_iff in Hg as (e & <- & _).
             now apply descendant_of_expr_unmatched with e.
          -- now apply descendant_of_expr_unmatched with value.
        * apply in_map_iff in Hc as (s & <- & Hs).
          apply (Hother s); [apply in_or_app; now right | now apply descendant_child with g].
      + apply in_map_iff in Hc as (e & <- & _).
        apply descendant_of_expr_unmatched with e. now apply descendant_child with g.
    - match goal with
      | |- (queue_size (concat (map iter_child_nodes ?q)) <= _)%nat =>
          pose proof (queue_size_children q) as Hq
      end.
      pose proof (node_size_children
                    (NStmt (ClassDef name bases kws
                              (before ++ Assign targets value :: after) decs))) as Hn.
      cbn [iter_child_nodes] in Hn. rewrite map_app in Hn. cbn [map] in Hn. lia. }
  apply scan_nodes_single.
  - intros m [<-|Hm]; [reflexivity|].
    repeat (apply in_app_or in Hm as [Hm|Hm]).
    + apply in_map_iff in Hm as (e & <- & _). reflexivity.
    + apply in_map_iff in Hm as (k & <- & _). reflexivity.
    + apply in_map_iff in Hm as (s & <- & Hs).
      apply (Hother s); [apply in_or_app; now left | constructor].
  - intros m Hm. repeat (apply in_app_or in Hm as [Hm|Hm]).
    + apply in_map_iff in Hm as (s & <- & Hs).
      apply (Hother s); [apply in_or_app; now right | constructor].
    + apply in_map_iff in Hm as (e & <- & _). reflexivity.
    + now apply Htail.
Qed.

(** ** The extractor on files *)

(** C1, as the code has it: on the file whose only statement is
    [class Foo] with [library_metadata = {"requirements": ["numpy>=1.20",
    "pandas"]}] the extractor returns the two requirements in declaration
    order, and its classes are the three characters of the name, not the
    name [Foo] as one element. *)
Theorem foo_classes_are_characters (rt : Runtime) (filepath : string) :
  open_and_parse rt filepath = Ok foo_file ->
  get_contrib_requirements rt filepath
  = Ok {| classes := ["F"; "o"; "o"];
          requirements := [VStr "numpy>=1.20"; VStr "pandas"] |}.
Proof. intros H. unfold get_contrib_requirements. rewrite H. reflexivity. Qed.

Lemma foo_classes_are_characters_witness :
  get_contrib_requirements (table_runtime [("foo.py", foo_file)]) "foo.py"
  = Ok {| classes := ["F"; "o"; "o"];
          requirements := [VStr "numpy>=1.20"; VStr "pandas"] |}.
Proof. apply foo_classes_are_characters. reflexivity. Defined.

(** Whatever else a file with one top-level class [Foo] holds, a result of
    the extractor never has [Foo] as its classes. *)
Lemma single_class_foo (rt : Runtime) (filepath : string) (before after : list stmt)
    bases kws body decs (info : RequirementsInfo) :
  Forall (fun s => is_class_def s = false) before ->
  Forall (fun s => is_class_def s = false) after ->
  open_and_parse rt filepath = Ok (before ++ ClassDef "Foo" bases kws body decs :: after) ->
  get_contrib_requirements rt filepath = Ok info ->
  classes info = ["F"; "o"; "o"].
Proof.
  intros Hb Ha Hopen. unfold get_contrib_requirements. rewrite Hopen. simpl.
  rewrite scan_children_app, scan_children_no_class by assumption. simpl.
  destruct (scan_nodes rt _ _) as [info1|] eqn:H1; [simpl|discriminate].
  rewrite scan_children_no_class by assumption. intros [= <-].
  now rewrite (scan_nodes_classes _ _ _ _ H1).
Qed.

(** The same for every file with one top-level class [Foo] whose body holds
    the assignment among statements without a matched assignment of their
    own: the requirements come out as declared, the classes as characters. *)
Lemma single_class_foo_result (rt : Runtime) (filepath : string)
    (before after : list stmt) bases kws (pre post : list stmt) decs :
  Forall (fun s => is_class_def s = false) before ->
  Forall (fun s => is_class_def s = false) after ->
  (forall s d, In s (pre ++ post) -> descendant (NStmt s) d -> node_matches d = false) ->
  open_and_parse rt filepath
  = Ok (before
        ++ ClassDef "Foo" bases kws
             (pre ++ Assign [Name "library_metadata"]
                       (requirements_literal ["numpy>=1.20"; "pandas"]) :: post) decs
        :: after) ->
  get_contrib_requirements rt filepath
  = Ok {| classes := ["F"; "o"; "o"];
          requirements := [VStr "numpy>=1.20"; VStr "pandas"] |}.
Proof.
  intros Hb Ha Hother Hopen. unfold get_contrib_requirements. rewrite Hopen. simpl.
  rewrite scan_children_app, scan_children_no_class by assumption.
  cbn [mbind result_bind scan_children].
  rewrite class_with_one_assignment by assumption. cbn.
  now apply scan_children_no_class.
Qed.

(** C4: when a top-level class holds a matched [library_metadata]
    assignment whose right-hand side does not evaluate to a dictionary
    (it is no literal, or a literal of another kind), the extractor raises:
    nothing catches the failure and no result is returned. *)
Theorem malformed_metadata_raises (rt : Runtime) (filepath : string) (tree : py_module)
    (child : stmt) (targets : list expr) (value : expr) :
  open_and_parse rt filepath = Ok tree ->
  In child tree ->
  is_class_def child = true ->
  In (NStmt (Assign targets value)) (walk (NStmt child)) ->
  node_matches (NStmt (Assign targets value)) = true ->
  (forall items, literal_eval value <> Ok (VDict items)) ->
  exists e, get_contrib_requirements rt filepath = Raise e.
Proof.
  intros Hopen Hchild Hclass Hwalk Hmatch Hvalue.
  unfold get_contrib_requirements. rewrite Hopen. simpl.
  apply scan_children_raises with (child := child); [assumption|].
  intros info. destruct child; try discriminate. unfold scan_child.
  apply scan_nodes_raises with (n := NStmt (Assign targets value)); [assumption|].
  intros info'. apply node_matches_spec in Hmatch as (ids & value' & [= -> <-] & Hin).
  rewrite scan_node_matched by assumption.
  destruct (literal_eval value) as [v|e] eqn:Hv; [|now exists e].
  destruct v; try (now exists AttributeError). now destruct (Hvalue items).
Qed.

Lemma malformed_metadata_raises_witness :
  exists e, get_contrib_requirements
              (table_runtime [("foo.py", variable_metadata_file)]) "foo.py" = Raise e.
Proof.
  apply (malformed_metadata_raises (table_runtime [("foo.py", variable_metadata_file)])
           "foo.py" variable_metadata_file
           (ClassDef "Foo" [] [] [Assign [Name "library_metadata"] (Name "REQUIREMENTS")] [])
           [Name "library_metadata"] (Name "REQUIREMENTS")).
  - reflexivity.
  - simpl. right. now left.
  - reflexivity.
  - vm_compute. right. now left.
  - reflexivity.
  - intros items. vm_compute. discriminate.
Defined.

(** A variable on the right-hand side is no literal. *)
Lemma literal_eval_name (id : string) : literal_eval (Name id) = Raise ValueError.
Proof. reflexivity. Qed.

(** A literal that is no dictionary has no [get]. *)
Lemma py_get_not_dict (v key default : pyval) :
  (forall items, v <> VDict items) -> py_get v key default = Raise AttributeError.
Proof. intros H. destruct v; try reflexivity. now destruct (H items). Qed.

(** C5, the claim as stated fails: the file [class Foo: pass] has no
    [library_metadata] assignment at all, yet the classes of its result are
    not empty. *)
Lemma class_without_metadata_has_classes :
  open_and_parse (table_runtime [("plain.py", plain_class_file)]) "plain.py"
  = Ok plain_class_file
  /\ forallb (fun child => forallb (fun n => negb (node_matches n)) (walk (NStmt child)))
       plain_class_file = true
  /\ get_contrib_requirements (table_runtime [("plain.py", plain_class_file)]) "plain.py"
     <> Ok {| classes := []; requirements := [] |}.
Proof.
  split; [reflexivity|]. split; [vm_compute; reflexivity | vm_compute; discriminate].
Qed.

(** C5, amended: when no top-level class of a file holds a matched
    [library_metadata] assignment, the extractor returns, and the
    requirements of its result are empty; when the file has no top-level
    class at all, the classes are empty too. *)
Theorem no_metadata_no_requirements (rt : Runtime) (filepath : string) (tree : py_module) :
  open_and_parse rt filepath = Ok tree ->
  (forall child n, In child tree -> is_class_def child = true ->
                   In n (walk (NStmt child)) -> node_matches n = false) ->
  (exists cls, get_contrib_requirements rt filepath
               = Ok {| classes := cls; requirements := [] |})
  /\ (Forall (fun s => is_class_def s = false) tree ->
      get_contrib_requirements rt filepath = Ok {| classes := []; requirements := [] |}).
Proof.
  intros Hopen Hnone. unfold get_contrib_requirements. rewrite Hopen. simpl. split.
  - destruct (scan_children_unmatched rt tree {| classes := []; requirements := [] |} Hnone)
      as [cls Hcls].
    exists cls. exact Hcls.
  - intros Hno. now apply scan_children_no_class.
Qed.

Lemma no_metadata_no_requirements_witness :
  (exists cls, get_contrib_requirements (table_runtime [("plain.py", plain_class_file)])
                 "plain.py" = Ok {| classes := cls; requirements := [] |})
  /\ (Forall (fun s => is_class_def s = false) plain_class_file ->
      get_contrib_requirements (table_runtime [("plain.py", plain_class_file)]) "plain.py"
      = Ok {| classes := []; requirements := [] |}).
Proof.
  apply (no_metadata_no_requirements (table_runtime [("plain.py", plain_class_file)])
           "plain.py" plain_class_file).
  - reflexivity.
  - intros child n [<-|[]] _ Hn. vm_compute in Hn.
    destruct Hn as [<-|[<-|[]]]; reflexivity.
Defined.

(** C6: the extractor is the extractor that, in each top-level class, looks
    only at the assignment statements whose targets are all simple names;
    statements with a tuple or list pattern among their targets are not
    looked at, whatever names the pattern holds. *)
Theorem only_simple_name_assignments (rt : Runtime) (filepath : string) :
  get_contrib_requirements rt filepath = extract_from_simple_assignments rt filepath.
Proof.
  unfold get_contrib_requirements, extract_from_simple_assignments.
  destruct (open_and_parse rt filepath) as [tree|e]; [simpl|reflexivity].
  generalize {| classes := []; requirements := [] |}.
  induction tree as [|child tree IH]; intros info; simpl; [reflexivity|].
  assert (scan_child rt child info = scan_child_simple rt child info) as ->.
  { destruct child; try reflexivity. apply scan_nodes_filter. }
  destruct (scan_child_simple rt child info); simpl; [apply IH | reflexivity].
Qed.

(** A pattern holding the name [library_metadata] is no simple name. *)
Lemma pattern_with_library_metadata_skipped (rt : Runtime) (value : expr)
    (info : RequirementsInfo) :
  scan_node rt (NStmt (Assign [Tuple [Name "a"; Name "library_metadata"]] value)) info
  = Ok info.
Proof. apply scan_node_pattern. now left. Qed.

(** C7: a matched [library_metadata] dictionary without the key
    [requirements] leaves the result as it is, and nothing is raised. *)
Theorem missing_requirements_key (rt : Runtime) (ids : list string) (value : expr)
    (items : list (pyval * pyval)) (info : RequirementsInfo) :
  "library_metadata" ∈ ids ->
  literal_eval value = Ok (VDict items) ->
  ~ In (VStr "requirements") (map fst items) ->
  scan_node rt (NStmt (Assign (map Name ids) value)) info = Ok info.
Proof.
  intros Hin Hvalue Hkey. rewrite scan_node_matched by assumption.
  rewrite Hvalue. simpl. rewrite dict_get_absent by assumption. simpl.
  now rewrite app_nil_r, info_eta.
Qed.

Lemma missing_requirements_key_witness :
  scan_node (table_runtime []) (NStmt (Assign (map Name ["library_metadata"]) maturity_only))
    {| classes := ["F"; "o"; "o"]; requirements := [VStr "numpy"] |}
  = Ok {| classes := ["F"; "o"; "o"]; requirements := [VStr "numpy"] |}.
Proof.
  apply (missing_requirements_key (table_runtime []) ["library_metadata"] maturity_only
           [(VStr "maturity", VStr "experimental")]).
  - apply list_elem_of_here.
  - reflexivity.
  - simpl. intros [H|[]]. discriminate.
Defined.

(** C8: in a file with two top-level classes, whatever stands around them,
    the result is the result of the first class alone followed by the
    result of the second class alone. *)
Theorem two_classes_concatenate (rt : Runtime) (filepath first_path second_path : string)
    (before between after : list stmt) (first second : stmt)
    (first_info second_info : RequirementsInfo) :
  Forall (fun s => is_class_def s = false) before ->
  Forall (fun s => is_class_def s = false) between ->
  Forall (fun s => is_class_def s = false) after ->
  open_and_parse rt filepath = Ok (before ++ first :: between ++ second :: after) ->
  open_and_parse rt first_path = Ok [first] ->
  open_and_parse rt second_path = Ok [second] ->
  get_contrib_requirements rt first_path = Ok first_info ->
  get_contrib_requirements rt second_path = Ok second_info ->
  get_contrib_requirements rt filepath
  = Ok {| classes := classes first_info ++ classes second_info;
          requirements := requirements first_info ++ requirements second_info |}.
Proof.
  intros Hb Hm Ha Hopen H1 H2. unfold get_contrib_requirements.
  rewrite Hopen, H1, H2. simpl.
  destruct (scan_child rt first _) as [i1|] eqn:E1; [simpl|discriminate]. intros [= ->].
  destruct (scan_child rt second _) as [i2|] eqn:E2; [simpl|discriminate]. intros [= ->].
  rewrite scan_children_app, scan_children_no_class by assumption. simpl.
  rewrite E1. simpl.
  rewrite scan_children_app, scan_children_no_class by assumption. simpl.
  rewrite <- (prepend_to_empty first_info) at 1.
  rewrite scan_child_prepend, E2. simpl.
  now rewrite scan_children_no_class by assumption.
Qed.

Lemma two_classes_concatenate_witness :
  get_contrib_requirements
    (table_runtime [("both.py", two_class_file); ("a.py", [first_class]);
                    ("b.py", [second_class])]) "both.py"
  = Ok {| classes := ["A"] ++ ["B"];
          requirements := [VStr "numpy"] ++ [VStr "pandas"; VStr "scipy"] |}.
Proof.
  apply (two_classes_concatenate
           (table_runtime [("both.py", two_class_file); ("a.py", [first_class]);
                           ("b.py", [second_class])])
           "both.py" "a.py" "b.py"
           [Import ["os"]] [Expr (Call (Name "print") [] [])] [Pass]
           first_class second_class
           {| classes := ["A"]; requirements := [VStr "numpy"] |}
           {| classes := ["B"]; requirements := [VStr "pandas"; VStr "scipy"] |}).
  - repeat constructor.
  - repeat constructor.
  - repeat constructor.
  - reflexivity.
  - reflexivity.
  - reflexivity.
  - reflexivity.
  - reflexivity.
Defined.

(** C10: an assignment whose targets are all simple names, one of them
    [library_metadata], contributes the requirements of its dictionary; the
    same right-hand side under targets of which one is a pattern
    contributes nothing. *)
Theorem chained_targets (rt : Runtime) (ids : list string) (pattern_targets : list expr)
    (value : expr) (items : list (pyval * pyval)) (reqs : list pyval)
    (info : RequirementsInfo) :
  "library_metadata" ∈ ids ->
  literal_eval value = Ok (VDict items) ->
  dict_get items (VStr "requirements") (VList []) = VList reqs ->
  Exists (fun t => is_name t = false) pattern_targets ->
  scan_node rt (NStmt (Assign (map Name ids) value)) info
  = Ok {| classes := classes info; requirements := requirements info ++ reqs |}
  /\ scan_node rt (NStmt (Assign pattern_targets value)) info = Ok info.
Proof.
  intros Hin Hvalue Hget Hpattern. split.
  - rewrite scan_node_matched by assumption. rewrite Hvalue. simpl. now rewrite Hget.
  - now apply scan_node_pattern.
Qed.

Lemma chained_targets_witness :
  scan_node (table_runtime [])
    (NStmt (Assign (map Name ["library_metadata"; "backup"]) (requirements_literal ["numpy"])))
    {| classes := []; requirements := [] |}
  = Ok {| classes := []; requirements := [] ++ [VStr "numpy"] |}
  /\ scan_node (table_runtime [])
       (NStmt (Assign [Tuple [Name "a"; Name "b"]; Name "library_metadata"]
                 (requirements_literal ["numpy"])))
       {| classes := []; requirements := [] |}
     = Ok {| classes := []; requirements := [] |}.
Proof.
  apply (chained_targets (table_runtime []) ["library_metadata"; "backup"]
           [Tuple [Name "a"; Name "b"]; Name "library_metadata"]
           (requirements_literal ["numpy"])
           [(VStr "requirements", VList [VStr "numpy"])] [VStr "numpy"]
           {| classes := []; requirements := [] |}).
  - apply list_elem_of_here.
  - reflexivity.
  - reflexivity.
  - left. reflexivity.
Defined.

(** ** Steps of the orchestrator *)

Section Steps.
Context {W : Type}.

Lemma bind_run {A B} (m : M W A) (f : A -> M W B) (st : State W) :
  (m ≫= f) st = match m st with
                | (Ok a, st') => f a st'
                | (Raise e, st') => (Raise e, st')
                end.
Proof. reflexivity. Qed.











Lemma emits_ret {A} (P : event -> Prop) (a : A) : emits P (mret a : M W A).
Proof. intros st. exists []. simpl. now rewrite app_nil_r. Qed.

Lemma emits_bind {A B} (P : event -> Prop) (m : M W A) (f : A -> M W B) :
  emits P m -> (forall a, emits P (f a)) -> emits P (m ≫= f).
Proof.
  intros Hm Hf st. rewrite bind_run. destruct (Hm st) as (evs & He & HP).
  destruct (m st) as [[a|e] st1]; simpl in *.
  - destruct (Hf a st1) as (evs' & He' & HP').
    exists (evs ++ evs'). rewrite He', He, app_assoc. split; [reflexivity|].
    now apply Forall_app.
  - now exists evs.
Qed.

Lemma emits_emit (P : event -> Prop) (e : event) : P e -> emits P (emit e : M W unit).
Proof. intros H st. exists [e]. simpl. split; [reflexivity | now constructor]. Qed.

Lemma emits_ext_read {A} (P : event -> Prop) (f : W -> A) : emits P (ext_read f).
Proof. intros st. exists []. simpl. now rewrite app_nil_r. Qed.

Lemma emits_ext_try {A} (P : event -> Prop) (f : W -> result A * W) :
  emits P (ext_try f).
Proof.
  intros st. exists []. unfold ext_try. destruct (f (world st)). simpl.
  now rewrite app_nil_r.
Qed.

Lemma emits_ext_call {A} (P : event -> Prop) (f : W -> A * W) : emits P (ext_call f).
Proof.
  intros st. exists []. unfold ext_call. destruct (f (world st)). simpl.
  now rewrite app_nil_r.
Qed.

Lemma emits_lift {A} (P : event -> Prop) (r : result A) : emits P (lift r : M W A).
Proof. intros st. exists []. simpl. now rewrite app_nil_r. Qed.

Lemma emits_for_each {A} (P : event -> Prop) (l : list A) (body : A -> M W unit) :
  (forall x, emits P (body x)) -> emits P (for_each l body).
Proof.
  intros Hb. induction l as [|x l IH]; simpl.
  - apply emits_ret.
  - apply emits_bind; [apply Hb | intros _; apply IH].
Qed.

Lemma emits_for_fold {A B} (P : event -> Prop) (l : list A) (body : A -> B -> M W B)
    (acc : B) :
  (forall x b, emits P (body x b)) -> emits P (for_fold l body acc).
Proof.
  intros Hb. revert acc. induction l as [|x l IH]; intros acc; simpl.
  - apply emits_ret.
  - apply emits_bind; [apply Hb | intros b; apply IH].
Qed.
End Steps.

(** ** execute_shell_command *)

Section OrchestratorProperties.
Context {W D : Type}.

(** The command is run once.  When the run completes, its status code
    comes back as the result, and after a non-zero status the events end
    with a record at [ERROR]; when the call itself raises, the exception
    comes back.  What follows the run in the events are reports. *)
Lemma execute_shell_command_outcome (X : Externals W D) (command : string) (st : State W) :
  exists reports,
    execute_shell_command X command st
    = (match shell_result X command (world st) with
       | Ok res => Ok (returncode res)
       | Raise e => Raise e
       end,
       {| world := shell_world X command (world st);
          events := events st ++ SubprocessRun ["bash"; "-c"; command] :: reports |})
    /\ Forall (fun e => is_report e = true) reports
    /\ (forall res, shell_result X command (world st) = Ok res -> returncode res <> 0 ->
        exists msg, reports = [StderrWrite (stdout res); Logged ERROR msg]).
Proof.
  unfold execute_shell_command, shell_result, shell_world.
  rewrite !bind_run. unfold ext_read at 1. cbn [fst snd].
  rewrite !bind_run. unfold ext_read at 1. cbn [fst snd].
  rewrite !bind_run. unfold emit at 1. cbn [fst snd].
  rewrite !bind_run. unfold ext_try at 1. cbn [world events].
  destruct (subprocess_run X _ _ _ (world st)) as [[res|e] w']; cbn [fst snd].
  - destruct (returncode res =? 0) eqn:Hrc.
    + apply Z.eqb_eq in Hrc. rewrite Hrc. eexists [_].
      unfold mbind, M_bind, logger_info, emit, mret, M_ret. cbn. rewrite <- app_assoc.
      split; [reflexivity|]. split; [now repeat constructor|].
      intros res' [= <-] Hne. now destruct Hne.
    + eexists [_; _].
      unfold mbind, M_bind, logger_error, emit, mret, M_ret. cbn. rewrite <- !app_assoc.
      split; [reflexivity|]. split; [now repeat constructor|].
      intros res' [= <-] _. now eexists.
  - exists []. split; [reflexivity|]. split; [constructor | discriminate].
Qed.

Lemma filter_action_reports (reports : list event) :
  Forall (fun e => is_report e = true) reports ->
  filter (fun e => is_action e = true) reports = [].
Proof.
  induction 1 as [|e l He _ IH]; [reflexivity|].
  rewrite filter_cons, IH. destruct e; try discriminate; reflexivity.
Qed.

Lemma filter_effect_reports (reports : list event) :
  Forall (fun e => is_report e = true) reports ->
  filter (fun e => is_report e = false) reports = [].
Proof.
  induction 1 as [|e l He _ IH]; [reflexivity|].
  rewrite filter_cons, IH. destruct e; try discriminate; reflexivity.
Qed.

Lemma filter_action_log (l : list event) (lvl : level) (msg : string) :
  filter (fun e => is_action e = true) (l ++ [Logged lvl msg])
  = filter (fun e => is_action e = true) l.
Proof.
  rewrite filter_app, filter_cons. cbn [is_action].
  destruct (decide (false = true)); [discriminate|]. apply app_nil_r.
Qed.

(** One requirement: one run of the installer; the loop goes on whatever
    the status of a completed run, and stops only when the call raises. *)
Lemma install_requirement_outcome (X : Externals W D) (req : pyval) (st : State W) :
  exists st',
    install_requirement X req st
    = (match shell_result X (pip_install_command X req) (world st) with
       | Ok _ => Ok tt
       | Raise e => Raise e
       end, st')
    /\ world st' = shell_world X (pip_install_command X req) (world st)
    /\ filter (fun e => is_action e = true) (events st')
       = filter (fun e => is_action e = true) (events st)
         ++ [SubprocessRun ["bash"; "-c"; pip_install_command X req]]
    /\ filter (fun e => is_report e = false) (events st')
       = filter (fun e => is_report e = false) (events st)
         ++ [SubprocessRun ["bash"; "-c"; pip_install_command X req]].
Proof.
  unfold install_requirement. rewrite bind_run. unfold logger_debug, emit at 1.
  rewrite bind_run.
  match goal with
  | |- context [execute_shell_command X ?c ?s] =>
      destruct (execute_shell_command_outcome X c s) as (reports & -> & Hr & _)
  end.
  cbn [world events].
  destruct (shell_result X (pip_install_command X req) (world st)) as [res|e];
    (eexists; split; [reflexivity|]; cbn [world events]; split; [reflexivity|]);
    rewrite <- app_assoc; cbn [app];
    rewrite !filter_app, !filter_cons; cbn;
    now rewrite (filter_action_reports _ Hr), (filter_effect_reports _ Hr).
Qed.

(** The installations and imports that a loop has made are the first part
    of its plan; the whole of it when the loop returns. *)
Lemma install_requirements_made (X : Externals W D) (info : RequirementsInfo) (st : State W) :
  exists made rest,
    map (fun req => SubprocessRun ["bash"; "-c"; pip_install_command X req])
      (requirements info) = made ++ rest
    /\ filter (fun e => is_action e = true)
         (events (snd (install_requirements X info st)))
       = filter (fun e => is_action e = true) (events st) ++ made
    /\ (fst (install_requirements X info st) = Ok tt -> rest = []).
Proof.
  unfold install_requirements. revert st.
  induction (requirements info) as [|req reqs IH]; intros st.
  - exists [], []. simpl. rewrite app_nil_r. now repeat split.
  - cbn [for_each map]. rewrite bind_run.
    destruct (install_requirement_outcome X req st) as (st1 & -> & _ & Ha & _).
    destruct (shell_result X _ (world st)) as [res|e].
    + destruct (IH st1) as (made & rest & Hplan & Hev & Hok).
      exists (SubprocessRun ["bash"; "-c"; pip_install_command X req] :: made), rest.
      split; [cbn; now rewrite Hplan|]. split; [|assumption].
      rewrite Hev, Ha, <- app_assoc. reflexivity.
    + exists [SubprocessRun ["bash"; "-c"; pip_install_command X req]],
             (map (fun req => SubprocessRun ["bash"; "-c"; pip_install_command X req]) reqs).
      split; [reflexivity|]. split; [assumption | discriminate].
Qed.

Lemma load_module_made (X : Externals W D) (prefix : string)
    (requirements_dict : gmap string RequirementsInfo) (name : string) (st : State W) :
  exists made rest,
    planned_actions X prefix [name] requirements_dict = made ++ rest
    /\ filter (fun e => is_action e = true)
         (events (snd (load_module X prefix requirements_dict name st)))
       = filter (fun e => is_action e = true) (events st) ++ made
    /\ (fst (load_module X prefix requirements_dict name st) = Ok tt -> rest = []).
Proof.
  unfold load_module, planned_actions. cbn [map concat]. rewrite app_nil_r, bind_run.
  assert (exists made rest r st1,
      match requirements_dict !! name with
      | Some info =>
          _ ← logger_info ("Loading dependencies for module " +:+ name);
          install_requirements X info
      | None => mret tt
      end st = (r, st1)
      /\ match requirements_dict !! name with
         | Some info =>
             map (fun req => SubprocessRun ["bash"; "-c"; pip_install_command X req])
               (requirements info)
         | None => []
         end = made ++ rest
      /\ filter (fun e => is_action e = true) (events st1)
         = filter (fun e => is_action e = true) (events st) ++ made
      /\ (r = Ok tt -> rest = []))
    as (made & rest & r & st1 & -> & Hplan & H1 & Hok).
  { destruct (requirements_dict !! name) as [info|].
    - rewrite bind_run. unfold logger_info, emit at 1.
      match goal with
      | |- context [install_requirements X info ?s] =>
          destruct (install_requirements_made X info s) as (made & rest & Hplan & Ha & Hok);
          destruct (install_requirements X info s) as [r st1]
      end.
      exists made, rest, r, st1. split; [reflexivity|]. split; [assumption|].
      split; [|assumption]. cbn [snd events] in Ha.
      now rewrite Ha, filter_action_log.
    - exists [], [], (Ok tt), st. split; [reflexivity|]. split; [reflexivity|].
      split; [now rewrite app_nil_r | reflexivity]. }
  rewrite Hplan. destruct r as [[]|e].
  - rewrite (Hok eq_refl), app_nil_r in *.
    rewrite bind_run. unfold logger_debug, emit at 1.
    rewrite bind_run. unfold importlib_import_module. rewrite bind_run.
    unfold emit at 1. unfold ext_try. cbn [world events].
    eexists (made ++ [_]), []. rewrite app_nil_r.
    split; [reflexivity|].
    destruct (import_module X _ _ _) as [[m|e] w]; cbn;
      (split; [rewrite !filter_app, H1, <- !app_assoc, !filter_cons; reflexivity|]);
      reflexivity.
  - eexists made, (rest ++ [_]). rewrite app_assoc.
    split; [reflexivity|]. split; [assumption | discriminate].
Qed.

Lemma planned_actions_cons (X : Externals W D) (prefix name : string) (names : list string)
    (requirements_dict : gmap string RequirementsInfo) :
  planned_actions X prefix (name :: names) requirements_dict
  = planned_actions X prefix [name] requirements_dict
    ++ planned_actions X prefix names requirements_dict.
Proof. unfold planned_actions. cbn [map concat]. now rewrite app_nil_r. Qed.

Lemma load_modules_made (X : Externals W D) (prefix : string) (names : list string)
    (requirements_dict : gmap string RequirementsInfo) (st : State W) :
  exists made rest,
    planned_actions X prefix names requirements_dict = made ++ rest
    /\ filter (fun e => is_action e = true)
         (events (snd (load_modules X prefix names requirements_dict st)))
       = filter (fun e => is_action e = true) (events st) ++ made
    /\ (fst (load_modules X prefix names requirements_dict st) = Ok tt -> rest = []).
Proof.
  unfold load_modules. revert st. induction names as [|name names IH]; intros st.
  - exists [], []. simpl. rewrite app_nil_r. now repeat split.
  - cbn [for_each]. rewrite bind_run, (planned_actions_cons X prefix name names).
    destruct (load_module_made X prefix requirements_dict name st)
      as (made1 & rest1 & Hplan1 & Hev1 & Hok1).
    destruct (load_module X prefix requirements_dict name st) as [[[]|e] st1];
      cbn [fst snd] in *.
    + rewrite (Hok1 eq_refl), app_nil_r in Hplan1.
      destruct (IH st1) as (made & rest & Hplan & Hev & Hok).
      exists (made1 ++ made), rest. rewrite Hplan1, Hplan, app_assoc.
      split; [reflexivity|]. split; [|assumption].
      now rewrite Hev, Hev1, app_assoc.
    + exists made1, (rest1 ++ planned_actions X prefix names requirements_dict).
      rewrite Hplan1, app_assoc. split; [reflexivity|].
      split; [assumption | discriminate].
Qed.


(** ** A loop whose calls all complete returns *)




(** ** The return code is never looked at *)








(** ** Without the experimental plugins *)

Ltac emits_steps :=
  repeat first
    [ apply emits_ret | apply emits_emit; reflexivity | apply emits_ext_read
    | apply emits_ext_call | apply emits_ext_try | apply emits_lift
    | apply emits_for_each; intros ? | apply emits_for_fold; intros ? ?
    | apply emits_bind; [|intros ?] ].

Lemma emits_build_gallery_core (X : Externals W D) (include_core : bool) :
  emits (fun e => touches_contrib e = false) (build_gallery X include_core false).
Proof.
  unfold build_gallery, diagnose, logger_info, logger_debug. emits_steps.
Qed.

(** ** The keys of the gallery *)

Lemma diagnose_loop_dom (X : Externals W D) (names : list string)
    (gallery_info gallery : gmap string D) (st st' : State W) :
  for_fold names (diagnose X) gallery_info st = (Ok gallery, st') ->
  dom gallery = dom gallery_info ∪ list_to_set names.
Proof.
  revert gallery_info st. induction names as [|name names IH]; intros g0 st; simpl.
  - intros [= <- _]. set_solver.
  - rewrite bind_run. unfold diagnose at 1. rewrite !bind_run.
    unfold logger_debug, emit at 1. rewrite !bind_run. unfold emit at 1.
    rewrite !bind_run. unfold ext_try. cbn [world events].
    destruct (run_diagnostics X name _) as [[d|e] w]; [|discriminate].
    cbn. intros H. rewrite (IH _ _ H), dom_insert_L. set_solver.
Qed.
(** The start of every run: the log record, the import of the library and
    the first question to the registry. *)
Lemma build_gallery_start (X : Externals W D) (include_core include_contrib_experimental : bool)
    (st : State W) (w : W) :
  import_great_expectations X (world st) = (Ok tt, w) ->
  build_gallery X include_core include_contrib_experimental st
  = (_ ← (if include_contrib_experimental then load_contrib_experimental X else mret tt);
     _ ← emit ListRegistered;
     all_expectations ← ext_read (list_registered_expectation_implementations X);
     _ ← logger_info
           ("Preparing to build gallery metadata for expectations: "
            +:+ py_str X (VSet (VStr <$> build_expectations_of include_core
                                      (list_registered_expectation_implementations X w)
                                      all_expectations)));
     for_fold (name_set_iteration X
                 (build_expectations_of include_core
                    (list_registered_expectation_implementations X w) all_expectations))
       (diagnose X) ∅)
      {| world := w;
         events := events st
                   ++ [Logged INFO "Getting base registered expectations list";
                       ImportStatement "great_expectations"; ListRegistered] |}.
Proof.
  intros Himport. unfold build_gallery.
  rewrite bind_run. unfold logger_info at 1, emit at 1.
  rewrite bind_run. unfold emit at 1.
  rewrite bind_run. unfold ext_try at 1. cbn [world events]. rewrite Himport.
  rewrite bind_run. unfold emit at 1.
  rewrite bind_run. unfold ext_read at 1. cbn [world events].
  now rewrite <- !app_assoc.
Qed.

(** ** What a run with the experimental plugins installs and imports *)






End OrchestratorProperties.

(** ** The orchestrator *)



(** In the sample world the installation of [pandas] fails with status 1;
    [scipy] is installed all the same, and both modules are imported. *)
Example sample_run_goes_on :
  returncode <$> shell_result sample_externals
                   (pip_install_command sample_externals (VStr "pandas")) []
  = Ok 1
  /\ filter (fun e => is_action e = true)
       (events (snd (build_gallery sample_externals true true sample_state)))
     = [ImportModule "expectations" "great_expectations_experimental";
        SubprocessRun ["bash"; "-c"; pip_install_command sample_externals (VStr "numpy>=1.20")];
        SubprocessRun ["bash"; "-c"; pip_install_command sample_externals (VStr "pandas")];
        SubprocessRun ["bash"; "-c"; pip_install_command sample_externals (VStr "scipy")];
        ImportModule "expectations.expect_foo" "great_expectations_experimental";
        ImportModule "expectations.expect_bar" "great_expectations_experimental";
        ImportModule "metrics" "great_expectations_experimental"].
Proof. split; vm_compute; reflexivity. Qed.

(** C3: with [include_contrib_experimental=False] a run of [build_gallery]
    only adds events, and none of them is a run of the installer, an
    extension of the module search path, a call of
    [importlib.import_module], a walk of the plugin directory or the
    opening of a plugin file.  Every call of [execute_shell_command] records
    a run of the installer, so there is no such call. *)
Theorem core_only_run_leaves_contrib_alone {W D : Type} (X : Externals W D)
    (include_core : bool) (st : State W) :
  exists evs,
    events (snd (build_gallery X include_core false st)) = events st ++ evs
    /\ Forall (fun e => touches_contrib e = false) evs.
Proof. apply emits_build_gallery_core. Qed.

(** C9: when iterating a set yields its elements, the keys of the mapping
    that [build_gallery(include_core=True,
    include_contrib_experimental=False)] returns are the names the registry
    reported at the start of the run. *)
Theorem core_gallery_keys {W D : Type} (X : Externals W D) (st st' : State W)
    (gallery : gmap string D) :
  (forall names name, name ∈ name_set_iteration X names <-> name ∈ names) ->
  build_gallery X true false st = (Ok gallery, st') ->
  dom gallery = list_to_set (core_expectations_of X st).
Proof.
  intros Hset. unfold build_gallery, core_expectations_of.
  rewrite bind_run. unfold logger_info, emit at 1.
  rewrite bind_run. unfold emit at 1.
  rewrite bind_run. unfold ext_try at 1. cbn [world events].
  destruct (import_great_expectations X (world st)) as [[[]|e] w]; [|discriminate].
  cbn [snd].
  rewrite bind_run. unfold emit at 1.
  rewrite bind_run. unfold ext_read at 1. cbn [world events].
  rewrite bind_run. cbn [mret M_ret].
  rewrite bind_run. unfold emit at 1.
  rewrite bind_run. unfold ext_read at 1. cbn [world events].
  rewrite bind_run. unfold emit at 1. cbn [build_expectations_of].
  intros H. apply diagnose_loop_dom in H. rewrite H, dom_empty_L, (left_id_L ∅ (∪)).
  apply set_eq. intros name. rewrite !elem_of_list_to_set. apply Hset.
Qed.

Lemma core_gallery_keys_witness :
  dom sample_core_gallery = list_to_set (core_expectations_of sample_externals sample_state).
Proof.
  apply (core_gallery_keys sample_externals sample_state
           (snd (build_gallery sample_externals true false sample_state))).
  - intros names name. apply elem_of_reverse.
  - vm_compute. reflexivity.
Defined.

(** * Further properties *)

(** ** The extractor: what counts at the top level *)

Lemma top_level_classes_scan (rt : Runtime) (tree : py_module) (info : RequirementsInfo) :
  scan_children rt (top_level_classes tree) info = scan_children rt tree info.
Proof.
  revert info. induction tree as [|child tree IH]; intros info; [reflexivity|].
  cbn [top_level_classes]. destruct (is_class_def child) eqn:Hc.
  - cbn [scan_children]. destruct (scan_child rt child info); simpl; [apply IH | reflexivity].
  - cbn [scan_children]. rewrite scan_child_not_class by assumption. simpl. apply IH.
Qed.

(** X1: only the class definitions among the top-level statements count.
    Two files with the same top-level classes in the same order give the
    same outcome, whatever else stands at their top level: an assignment
    to [library_metadata] outside a class, or a class inside a function or
    a conditional, is not looked at. *)
Theorem only_top_level_classes_count (rt : Runtime) (filepath filepath' : string)
    (tree tree' : py_module) :
  open_and_parse rt filepath = Ok tree ->
  open_and_parse rt filepath' = Ok tree' ->
  top_level_classes tree = top_level_classes tree' ->
  get_contrib_requirements rt filepath = get_contrib_requirements rt filepath'.
Proof.
  intros H H' Hsame. unfold get_contrib_requirements. rewrite H, H'. simpl.
  now rewrite <- (top_level_classes_scan rt tree), Hsame, top_level_classes_scan.
Qed.

Lemma only_top_level_classes_count_witness :
  get_contrib_requirements
    (table_runtime [("both.py", two_class_file); ("bare.py", [first_class; second_class])])
    "both.py"
  = get_contrib_requirements
      (table_runtime [("both.py", two_class_file); ("bare.py", [first_class; second_class])])
      "bare.py".
Proof.
  apply (only_top_level_classes_count _ "both.py" "bare.py" two_class_file
           [first_class; second_class]); reflexivity.
Defined.

Lemma scan_children_classes (rt : Runtime) (tree : py_module)
    (info info' : RequirementsInfo) :
  scan_children rt tree info = Ok info' ->
  classes info' = classes info ++ concat (map chars (top_level_class_names tree)).
Proof.
  revert info. induction tree as [|child tree IH]; intros info.
  - simpl. intros [= <-]. now rewrite app_nil_r.
  - cbn [scan_children]. destruct (scan_child rt child info) as [info1|] eqn:H1;
      [simpl|discriminate].
    intros H. rewrite (IH _ H). destruct child;
      try (injection H1 as <-; reflexivity).
    unfold scan_child in H1. apply scan_nodes_classes in H1. rewrite H1.
    cbn [classes top_level_class_names map concat]. now rewrite app_assoc.
Qed.

(** Iteration yields one element per character, also for a character
    whose encoding takes more than one byte. *)
Example chars_of_encoded_characters :
  chars "Foo" = ["F"; "o"; "o"]
  /\ chars (utf8 [206; 169; 109]%nat) = [utf8 [206; 169]%nat; "m"]
  /\ chars (utf8 [101; 226; 130; 172; 240; 159; 146; 161]%nat)
     = [utf8 [101]%nat; utf8 [226; 130; 172]%nat; utf8 [240; 159; 146; 161]%nat].
Proof. repeat split; vm_compute; reflexivity. Qed.

(** A class named with the two characters U+03A9 and [m], whose metadata
    gives the string of the two characters U+00E9 and [1] where a list is
    meant: two classes elements and two requirements. *)
Example encoded_names_by_character :
  get_contrib_requirements
    (table_runtime
       [("plugin.py",
         [ClassDef (utf8 [206; 169; 109]%nat) [] []
            [Assign [Name "library_metadata"]
               (Dict [Some (Constant (CStr "requirements"))]
                     [Constant (CStr (utf8 [195; 169; 49]%nat))])] []])])
    "plugin.py"
  = Ok {| classes := [utf8 [206; 169]%nat; "m"];
          requirements := [VStr (utf8 [195; 169]%nat); VStr "1"] |}.
Proof. vm_compute. reflexivity. Qed.

(** [strip] removes the whitespace at both ends, the ideographic space
    U+3000 and the no-break space U+00A0 included, and nothing inside. *)
Example strip_of_encoded_whitespace :
  strip " Successfully installed " = "Successfully installed"
  /\ strip (utf8 [227; 128; 128; 9; 97; 32; 98; 10; 194; 160]%nat) = "a b".
Proof. split; vm_compute; reflexivity. Qed.

(** X2: whenever the extractor returns, its classes are the characters of
    the names of the top-level classes, class after class, one element per
    character; neither the bodies of the classes nor the classes nested in
    them add to the list. *)
Theorem classes_are_name_characters (rt : Runtime) (filepath : string) (tree : py_module)
    (info : RequirementsInfo) :
  open_and_parse rt filepath = Ok tree ->
  get_contrib_requirements rt filepath = Ok info ->
  classes info = concat (map chars (top_level_class_names tree)).
Proof.
  intros Hopen. unfold get_contrib_requirements. rewrite Hopen. simpl.
  intros H. now rewrite (scan_children_classes _ _ _ _ H).
Qed.

Lemma classes_are_name_characters_witness :
  classes {| classes := ["E"; "x"; "p"; "e"; "c"; "t"; "F"; "o"; "o"];
             requirements := [VStr "numpy>=1.20"; VStr "pandas"; VStr "scipy"] |}
  = concat (map chars (top_level_class_names expect_foo_file)).
Proof.
  apply (classes_are_name_characters (table_runtime [("expect_foo.py", expect_foo_file)])
           "expect_foo.py" expect_foo_file); reflexivity.
Defined.

(** ** The extractor: one class with one declaration *)

(** The outcome for such a file is the outcome of its one assignment. *)
Lemma one_metadata_class_outcome (rt : Runtime) (filepath : string) (tree : py_module)
    (name : string) (ids : list string) (value : expr) :
  open_and_parse rt filepath = Ok tree ->
  one_metadata_class tree name ids value ->
  get_contrib_requirements rt filepath
  = (library_metadata ← literal_eval value;
     found ← py_get library_metadata (VStr "requirements") (VList []);
     reqs ← list_iadd rt [] found;
     Ok {| classes := chars name; requirements := reqs |}).
Proof.
  intros Hopen (before & after & bases & kws & pre & post & decs
                & -> & Hb & Ha & Hother & Hin).
  unfold get_contrib_requirements. rewrite Hopen. simpl.
  rewrite scan_children_app, scan_children_no_class by assumption.
  cbn [mbind result_bind scan_children].
  rewrite class_with_one_assignment by assumption.
  rewrite scan_node_matched by assumption. cbn [classes requirements app].
  destruct (literal_eval value) as [v|e]; [simpl|reflexivity].
  destruct (py_get v _ _) as [found|e]; [simpl|reflexivity].
  destruct (list_iadd rt [] found) as [reqs|e]; [simpl|reflexivity].
  now apply scan_children_no_class.
Qed.

(** The statements of a concrete body hold no matched assignment when none
    of the nodes of their walks is one. *)
Lemma no_matched_below (stmts : list stmt) :
  forallb (fun s => forallb (fun n => negb (node_matches n)) (walk (NStmt s))) stmts = true ->
  forall s d, In s stmts -> descendant (NStmt s) d -> node_matches d = false.
Proof.
  intros H s d Hs Hd. rewrite forallb_forall in H. specialize (H s Hs).
  rewrite forallb_forall in H. apply walk_spec in Hd. specialize (H d Hd).
  now apply negb_true_iff in H.
Qed.

(** X3: for a file with one class and one declaration, a dictionary whose
    [requirements] is a list or a tuple gives its items, in order, as the
    requirements; a dictionary without the key gives none. *)
Theorem declared_requirements_in_order (rt : Runtime) (filepath : string)
    (tree : py_module) (name : string) (ids : list string) (value : expr)
    (items : list (pyval * pyval)) (reqs : list pyval) :
  open_and_parse rt filepath = Ok tree ->
  one_metadata_class tree name ids value ->
  literal_eval value = Ok (VDict items) ->
  dict_get items (VStr "requirements") (VList []) = VList reqs
  \/ dict_get items (VStr "requirements") (VList []) = VTuple reqs ->
  get_contrib_requirements rt filepath
  = Ok {| classes := chars name; requirements := reqs |}.
Proof.
  intros Hopen Hone Hvalue Hget.
  rewrite (one_metadata_class_outcome rt filepath tree name ids value Hopen Hone).
  rewrite Hvalue. simpl. now destruct Hget as [-> | ->].
Qed.

Lemma declared_requirements_in_order_witness :
  get_contrib_requirements (table_runtime [("expect_foo.py", expect_foo_file)])
    "expect_foo.py"
  = Ok {| classes := chars "ExpectFoo";
          requirements := [VStr "numpy>=1.20"; VStr "pandas"; VStr "scipy"] |}.
Proof.
  apply (declared_requirements_in_order
           (table_runtime [("expect_foo.py", expect_foo_file)]) "expect_foo.py"
           expect_foo_file "ExpectFoo" ["library_metadata"]
           (Dict [Some (Constant (CStr "maturity")); Some (Constant (CStr "requirements"))]
                 [Constant (CStr "experimental");
                  List [Constant (CStr "numpy>=1.20"); Constant (CStr "pandas");
                        Constant (CStr "scipy")]])
           [(VStr "maturity", VStr "experimental");
            (VStr "requirements",
             VList [VStr "numpy>=1.20"; VStr "pandas"; VStr "scipy"])]).
  - reflexivity.
  - exists [ImportFrom (Some "great_expectations.expectations.expectation") ["Expectation"];
            Import ["scipy"]], [], [Name "Expectation"], [], [],
           [FunctionDef "validate" [Return (Some (Constant (CBool true)))] [] None], [].
    split; [reflexivity|]. split; [repeat constructor|]. split; [constructor|].
    split; [apply no_matched_below; vm_compute; reflexivity | apply list_elem_of_here].
  - reflexivity.
  - left. reflexivity.
Defined.

(** X4: a string under [requirements], where a list is meant, is taken
    apart: the requirements are its characters, one element each. *)
Theorem string_requirements_are_characters (rt : Runtime) (filepath : string)
    (tree : py_module) (name : string) (ids : list string) (value : expr)
    (items : list (pyval * pyval)) (s : string) :
  open_and_parse rt filepath = Ok tree ->
  one_metadata_class tree name ids value ->
  literal_eval value = Ok (VDict items) ->
  dict_get items (VStr "requirements") (VList []) = VStr s ->
  get_contrib_requirements rt filepath
  = Ok {| classes := chars name; requirements := map VStr (chars s) |}.
Proof.
  intros Hopen Hone Hvalue Hget.
  rewrite (one_metadata_class_outcome rt filepath tree name ids value Hopen Hone).
  rewrite Hvalue. simpl. now rewrite Hget.
Qed.

Lemma string_requirements_are_characters_witness :
  get_contrib_requirements (table_runtime [("plugin.py", string_requirements_file)])
    "plugin.py"
  = Ok {| classes := chars "Plugin"; requirements := map VStr (chars "numpy") |}.
Proof.
  apply (string_requirements_are_characters
           (table_runtime [("plugin.py", string_requirements_file)]) "plugin.py"
           string_requirements_file "Plugin" ["library_metadata"]
           (Dict [Some (Constant (CStr "requirements"))] [Constant (CStr "numpy")])
           [(VStr "requirements", VStr "numpy")]).
  - reflexivity.
  - exists [Assign [Name "library_metadata"] (requirements_literal ["scipy"])], [],
           [Name "Base"], [], [Expr (Constant (CStr "docstring"))],
           [FunctionDef "run" [Pass] [] None], [].
    split; [reflexivity|]. split; [repeat constructor|]. split; [constructor|].
    split; [apply no_matched_below; vm_compute; reflexivity | apply list_elem_of_here].
  - reflexivity.
  - reflexivity.
Defined.

(** X5: a value under [requirements] that cannot be iterated ([None], a
    number, a boolean) makes the extraction raise [TypeError]. *)
Theorem scalar_requirements_raise (rt : Runtime) (filepath : string)
    (tree : py_module) (name : string) (ids : list string) (value : expr)
    (items : list (pyval * pyval)) :
  open_and_parse rt filepath = Ok tree ->
  one_metadata_class tree name ids value ->
  literal_eval value = Ok (VDict items) ->
  not_iterable (dict_get items (VStr "requirements") (VList [])) = true ->
  get_contrib_requirements rt filepath = Raise TypeError.
Proof.
  intros Hopen Hone Hvalue Hget.
  rewrite (one_metadata_class_outcome rt filepath tree name ids value Hopen Hone).
  rewrite Hvalue. simpl.
  destruct (dict_get items (VStr "requirements") (VList [])); try discriminate; reflexivity.
Qed.

Lemma scalar_requirements_raise_witness :
  get_contrib_requirements (table_runtime [("plugin.py", none_requirements_file)])
    "plugin.py" = Raise TypeError.
Proof.
  apply (scalar_requirements_raise
           (table_runtime [("plugin.py", none_requirements_file)]) "plugin.py"
           none_requirements_file "Plugin" ["library_metadata"]
           (Dict [Some (Constant (CStr "requirements"))] [Constant CNone])
           [(VStr "requirements", VNone)]).
  - reflexivity.
  - exists [], [], [], [], [], [], [].
    split; [reflexivity|]. split; [constructor|]. split; [constructor|].
    split; [intros s d [] | apply list_elem_of_here].
  - reflexivity.
  - reflexivity.
Defined.

(** X6: the exception that comes out tells the two malformed declarations
    apart: a right-hand side that is no literal raises what
    [ast.literal_eval] raises for it, and a literal that is no dictionary
    raises [AttributeError]. *)
Theorem malformed_metadata_exception (rt : Runtime) (filepath : string)
    (tree : py_module) (name : string) (ids : list string) (value : expr) :
  open_and_parse rt filepath = Ok tree ->
  one_metadata_class tree name ids value ->
  (forall e, literal_eval value = Raise e ->
             get_contrib_requirements rt filepath = Raise e)
  /\ (forall v, literal_eval value = Ok v -> (forall items, v <> VDict items) ->
                get_contrib_requirements rt filepath = Raise AttributeError).
Proof.
  intros Hopen Hone.
  rewrite (one_metadata_class_outcome rt filepath tree name ids value Hopen Hone).
  split.
  - now intros e ->.
  - intros v -> Hv. simpl. now rewrite py_get_not_dict.
Qed.

Lemma malformed_metadata_exception_witness :
  get_contrib_requirements (table_runtime [("foo.py", variable_metadata_file)]) "foo.py"
  = Raise ValueError
  /\ get_contrib_requirements (table_runtime [("plugin.py", list_metadata_file)])
       "plugin.py" = Raise AttributeError.
Proof.
  assert (one_metadata_class variable_metadata_file "Foo" ["library_metadata"]
            (Name "REQUIREMENTS")) as Hfoo.
  { exists [Assign [Name "REQUIREMENTS"] (requirements_literal ["numpy"])],
           [], [], [], [], [], [].
    split; [reflexivity|]. split; [repeat constructor|]. split; [constructor|].
    split; [intros s d [] | apply list_elem_of_here]. }
  assert (one_metadata_class list_metadata_file "Plugin" ["library_metadata"]
            (List [Constant (CStr "numpy")])) as Hplugin.
  { exists [], [], [], [], [], [], [].
    split; [reflexivity|]. split; [constructor|]. split; [constructor|].
    split; [intros s d [] | apply list_elem_of_here]. }
  split.
  - apply (proj1 (malformed_metadata_exception
                    (table_runtime [("foo.py", variable_metadata_file)]) "foo.py"
                    variable_metadata_file "Foo" ["library_metadata"]
                    (Name "REQUIREMENTS") eq_refl Hfoo)).
    reflexivity.
  - apply (proj2 (malformed_metadata_exception
                    (table_runtime [("plugin.py", list_metadata_file)]) "plugin.py"
                    list_metadata_file "Plugin" ["library_metadata"]
                    (List [Constant (CStr "numpy")]) eq_refl Hplugin)
             (VList [VStr "numpy"])).
    + reflexivity.
    + discriminate.
Defined.

(** ** The orchestrator: what is reported on *)

Section GalleryContents.
Context {W D : Type}.

Lemma filter_not_in_self (core names : list string) :
  (forall name, name ∈ names -> name ∈ core) ->
  filter (fun e => e ∉ core) names = [].
Proof.
  induction names as [|name names IH]; intros H; [reflexivity|].
  rewrite filter_cons. destruct (decide (name ∉ core)) as [Hn|_].
  - destruct Hn. apply H. left.
  - apply IH. intros n Hn. apply H. now right.
Qed.

(** X7: when neither the core nor the experimental plugins are asked for,
    and the library imports, the gallery is empty and no diagnostics are
    run: the registry is asked twice, and that is all. *)
Theorem nothing_requested_nothing_built (X : Externals W D) (st : State W) (w : W) :
  name_set_iteration X [] = [] ->
  import_great_expectations X (world st) = (Ok tt, w) ->
  build_gallery X false false st
  = (Ok ∅,
     {| world := w;
        events := events st
                  ++ [Logged INFO "Getting base registered expectations list";
                      ImportStatement "great_expectations"; ListRegistered; ListRegistered;
                      Logged INFO ("Preparing to build gallery metadata for expectations: "
                                   +:+ py_str X (VSet []))] |}).
Proof.
  intros Hempty Himport. rewrite (build_gallery_start X false false st w Himport).
  rewrite bind_run. cbn [mret M_ret].
  rewrite bind_run. unfold emit at 1.
  rewrite bind_run. unfold ext_read at 1. cbn [world events].
  rewrite bind_run. unfold logger_info, emit at 1. cbn [world events].
  unfold build_expectations_of.
  rewrite filter_not_in_self by auto. rewrite Hempty. cbn.
  now rewrite <- !app_assoc.
Qed.

(** X8: with [include_core=False] no name that the registry reported at the
    start of the run is a key of the returned mapping, whether or not the
    experimental plugins were loaded. *)
Theorem core_left_out (X : Externals W D) (include_contrib_experimental : bool)
    (st st' : State W) (gallery : gmap string D) (name : string) :
  (forall names n, n ∈ name_set_iteration X names <-> n ∈ names) ->
  build_gallery X false include_contrib_experimental st = (Ok gallery, st') ->
  name ∈ core_expectations_of X st ->
  name ∉ dom gallery.
Proof.
  intros Hset Hrun Hcore. unfold core_expectations_of in Hcore.
  destruct (import_great_expectations X (world st)) as [[[]|e] w] eqn:Himport.
  - rewrite (build_gallery_start X false _ st w Himport) in Hrun.
    rewrite bind_run in Hrun.
    destruct ((if include_contrib_experimental then load_contrib_experimental X
               else mret tt) _) as [[[]|e] st1]; [|discriminate].
    rewrite bind_run in Hrun. unfold emit at 1 in Hrun.
    rewrite bind_run in Hrun. unfold ext_read at 1 in Hrun. cbn [world events] in Hrun.
    rewrite bind_run in Hrun. unfold logger_info, emit at 1 in Hrun.
    apply diagnose_loop_dom in Hrun. rewrite Hrun, dom_empty_L, (left_id_L ∅ (∪)).
    rewrite elem_of_list_to_set, Hset. unfold build_expectations_of.
    rewrite list_elem_of_filter. intros [Hnot _]. now apply Hnot.
  - unfold build_gallery in Hrun.
    rewrite bind_run in Hrun. unfold logger_info at 1, emit at 1 in Hrun.
    rewrite bind_run in Hrun. unfold emit at 1 in Hrun.
    rewrite bind_run in Hrun. unfold ext_try at 1 in Hrun. cbn [world events] in Hrun.
    rewrite Himport in Hrun. discriminate.
Qed.

Lemma diagnose_loop_raises (X : Externals W D) (names : list string) (name : string) :
  name ∈ names ->
  (forall w, exists e, fst (run_diagnostics X name w) = Raise e) ->
  forall gallery st, exists e, fst (for_fold names (diagnose X) gallery st) = Raise e.
Proof.
  intros Hin Hbad. induction names as [|n names IH]; [now apply elem_of_nil in Hin|].
  intros gallery st. cbn [for_fold]. rewrite bind_run.
  destruct (diagnose X n gallery st) as [[g|e] st1] eqn:Hd.
  - apply elem_of_cons in Hin as [->|Hin]; [|now apply IH].
    exfalso. unfold diagnose in Hd.
    rewrite bind_run in Hd. unfold logger_debug, emit at 1 in Hd.
    rewrite bind_run in Hd. unfold emit at 1 in Hd.
    rewrite bind_run in Hd. unfold ext_try in Hd. cbn [world events] in Hd.
    destruct (Hbad (world st)) as [e He].
    destruct (run_diagnostics X n (world st)) as [[d|e'] w]; [discriminate|].
    discriminate.
  - now exists e.
Qed.

(** X9: in a run that gets as far as the diagnostics, whatever its two
    flags, one name among those to report on whose diagnostics raise makes
    the whole run raise: no mapping is returned, not even for the names
    whose diagnostics went well. *)
Theorem failing_diagnostics_abort (X : Externals W D)
    (include_core include_contrib_experimental : bool) (st st1 : State W) (w : W)
    (name : string) :
  (forall names n, n ∈ name_set_iteration X names <-> n ∈ names) ->
  import_great_expectations X (world st) = (Ok tt, w) ->
  (if include_contrib_experimental then load_contrib_experimental X else mret tt)
    {| world := w;
       events := events st
                 ++ [Logged INFO "Getting base registered expectations list";
                     ImportStatement "great_expectations"; ListRegistered] |}
  = (Ok tt, st1) ->
  name ∈ build_expectations_of include_core
           (list_registered_expectation_implementations X w)
           (list_registered_expectation_implementations X (world st1)) ->
  (forall w', exists e, fst (run_diagnostics X name w') = Raise e) ->
  exists e, fst (build_gallery X include_core include_contrib_experimental st) = Raise e.
Proof.
  intros Hset Himport Hload Hname Hbad.
  rewrite (build_gallery_start X include_core include_contrib_experimental st w Himport).
  rewrite bind_run, Hload.
  rewrite bind_run. unfold emit at 1.
  rewrite bind_run. unfold ext_read at 1. cbn [world events].
  rewrite bind_run. unfold logger_info, emit at 1.
  apply diagnose_loop_raises with name; [|assumption].
  apply Hset. exact Hname.
Qed.
End GalleryContents.

Lemma nothing_requested_nothing_built_witness :
  fst (build_gallery sample_externals false false sample_state) = Ok ∅.
Proof.
  rewrite (nothing_requested_nothing_built sample_externals sample_state
             (world sample_state)); reflexivity.
Defined.

Lemma core_left_out_witness :
  "expect_column_to_exist"
  ∉ dom (match fst (build_gallery sample_externals false true sample_state) with
         | Ok gallery => gallery
         | Raise _ => ∅
         end).
Proof.
  apply (core_left_out sample_externals true sample_state
           (snd (build_gallery sample_externals false true sample_state))).
  - intros names n. apply elem_of_reverse.
  - vm_compute. reflexivity.
  - apply list_elem_of_here.
Defined.

Lemma failing_diagnostics_abort_witness :
  exists e, fst (build_gallery broken_diagnostics_externals true true sample_state)
            = Raise e.
Proof.
  apply (failing_diagnostics_abort broken_diagnostics_externals true true sample_state
           (snd (load_contrib_experimental broken_diagnostics_externals
                   {| world := world sample_state;
                      events := events sample_state
                                ++ [Logged INFO "Getting base registered expectations list";
                                    ImportStatement "great_expectations";
                                    ListRegistered] |}))
           (world sample_state) "expect_column_to_exist").
  - intros names n. apply elem_of_reverse.
  - reflexivity.
  - vm_compute. reflexivity.
  - vm_compute. apply list_elem_of_here.
  - intros w. now exists (OtherError "RuntimeError").
Defined.

(** ** The orchestrator: the order of its steps *)

Section Phases.
Context {W D : Type}.

Ltac emits_all :=
  repeat first
    [ apply emits_ret | apply emits_emit; reflexivity | apply emits_ext_read
    | apply emits_ext_call | apply emits_ext_try | apply emits_lift
    | apply emits_for_each; intros ? | apply emits_for_fold; intros ? ?
    | apply emits_bind; [|intros ?] ].

Lemma emits_execute_shell_command (X : Externals W D) (P : event -> Prop) (command : string) :
  (forall args, P (SubprocessRun args)) ->
  (forall e, is_report e = true -> P e) ->
  emits P (execute_shell_command X command).
Proof.
  intros Hrun Hreport st.
  destruct (execute_shell_command_outcome X command st) as (reports & Heq & Hrep & _).
  rewrite Heq. exists (SubprocessRun ["bash"; "-c"; command] :: reports).
  split; [reflexivity|]. constructor; [apply Hrun|].
  eapply Forall_impl; [exact Hrep | exact Hreport].
Qed.

(** Loading the modules never looks at the plugin directory. *)
Lemma emits_load_modules (X : Externals W D) (prefix : string) (names : list string)
    (requirements_dict : gmap string RequirementsInfo) :
  emits (fun e => is_file_access e = false)
    (load_modules X prefix names requirements_dict).
Proof.
  unfold load_modules. apply emits_for_each. intros name. unfold load_module.
  apply emits_bind.
  - destruct (requirements_dict !! name) as [info|]; [|apply emits_ret].
    unfold logger_info, install_requirements. apply emits_bind; [emits_all|intros _].
    apply emits_for_each. intros req. unfold install_requirement, logger_debug.
    apply emits_bind; [emits_all|intros _]. apply emits_bind; [|intros; apply emits_ret].
    apply emits_execute_shell_command; [reflexivity|].
    intros e He. destruct e; try discriminate; reflexivity.
  - intros _. unfold logger_debug, importlib_import_module. emits_all.
Qed.

(** Collecting the requirements never runs the installer. *)
Lemma emits_collect_requirements (X : Externals W D) (dir : string) :
  emits (fun e => is_run e = false) (collect_requirements X dir).
Proof.
  unfold collect_requirements. apply emits_bind; [emits_all|intros _].
  apply emits_bind; [emits_all|intros tree].
  apply emits_for_fold. intros [[root dirs] files] requirements_dict.
  apply emits_for_fold. intros file rd. unfold collect_file.
  destruct (endswith file ".py" && negb (String.eqb file "__init__.py"));
    unfold logger_debug; emits_all.
Qed.

Lemma phased_first {A} (P Q : event -> Prop) (m : M W A) : emits P m -> phased P Q m.
Proof.
  intros H st. destruct (H st) as (evs & He & HP).
  exists evs, []. rewrite app_nil_r. now repeat split.
Qed.

Lemma phased_second {A} (P Q : event -> Prop) (m : M W A) : emits Q m -> phased P Q m.
Proof.
  intros H st. destruct (H st) as (evs & He & HQ).
  exists [], evs. now repeat split.
Qed.

Lemma phased_bind_first {A B} (P Q : event -> Prop) (m : M W A) (f : A -> M W B) :
  emits P m -> (forall a, phased P Q (f a)) -> phased P Q (m ≫= f).
Proof.
  intros Hm Hf st. rewrite bind_run. destruct (Hm st) as (evs & He & HP).
  destruct (m st) as [[a|e] st1]; simpl in *.
  - destruct (Hf a st1) as (first & second & He' & HP' & HQ').
    exists (evs ++ first), second. rewrite He', He, <- !app_assoc.
    split; [reflexivity|]. split; [now apply Forall_app | assumption].
  - exists evs, []. rewrite app_nil_r. now repeat split.
Qed.

Lemma phased_bind_second {A B} (P Q : event -> Prop) (m : M W A) (f : A -> M W B) :
  phased P Q m -> (forall a, emits Q (f a)) -> phased P Q (m ≫= f).
Proof.
  intros Hm Hf st. rewrite bind_run.
  destruct (Hm st) as (first & second & He & HP & HQ).
  destruct (m st) as [[a|e] st1]; simpl in *.
  - destruct (Hf a st1) as (evs & He' & HQ').
    exists first, (second ++ evs). rewrite He', He, <- !app_assoc.
    split; [reflexivity|]. split; [assumption | now apply Forall_app].
  - now exists first, second.
Qed.

(** X10: in every run the plugin directory is read before anything is
    installed: the events of a run split into a first part without a run
    of the installer and a second part without a walk of the directory or
    the opening of a file. *)
Theorem files_read_before_installing (X : Externals W D)
    (include_core include_contrib_experimental : bool) (st : State W) :
  exists first second,
    events (snd (build_gallery X include_core include_contrib_experimental st))
    = events st ++ first ++ second
    /\ Forall (fun e => is_run e = false) first
    /\ Forall (fun e => is_file_access e = false) second.
Proof.
  revert st. change (phased (fun e => is_run e = false)
                            (fun e => is_file_access e = false)
                            (build_gallery X include_core include_contrib_experimental)).
  unfold build_gallery, logger_info.
  do 5 (apply phased_bind_first; [emits_all|intros ?]).
  apply phased_bind_second.
  - destruct include_contrib_experimental; [|apply phased_first, emits_ret].
    unfold load_contrib_experimental, logger_info.
    do 3 (apply phased_bind_first; [emits_all|intros ?]).
    apply phased_bind_first;
      [unfold importlib_import_module; emits_all | intros expectations_module].
    apply phased_bind_first; [apply emits_collect_requirements | intros requirements_dict].
    apply phased_second.
    apply emits_bind; [apply emits_load_modules | intros _].
    apply emits_bind; [unfold importlib_import_module; emits_all | intros metrics_module].
    apply emits_load_modules.
  - intros _. unfold diagnose, logger_info, logger_debug. emits_all.
Qed.
End Phases.

(** ** The orchestrator: the requirements it collects *)

Lemma substring_whole (s : string) : String.substring 0 (String.length s) s = s.
Proof. induction s as [|c s IH]; simpl; [reflexivity | now rewrite IH]. Qed.

Lemma substring_split (k : nat) (s : string) :
  (k <= String.length s)%nat ->
  String.substring 0 k s +:+ String.substring k (String.length s - k) s = s.
Proof.
  revert s. induction k as [|k IH]; intros s Hk.
  - rewrite Nat.sub_0_r, substring_whole. now destruct s.
  - destruct s as [|c s]; simpl in *; [lia|].
    change (String c (String.substring 0 k s
                      +:+ String.substring k (String.length s - k) s) = String c s).
    f_equal. apply IH. lia.
Qed.

(** What [file[:-3]] cuts off a name that ends with [.py] is the [.py]. *)
Lemma drop_last3_py (file : string) :
  endswith file ".py" = true -> drop_last3 file +:+ ".py" = file.
Proof.
  unfold endswith, drop_last3. cbn [String.length]. intros H.
  apply andb_prop in H as [Hlen Hend].
  apply Nat.leb_le in Hlen. apply String.eqb_eq in Hend.
  rewrite <- Hend.
  pose proof (substring_split (String.length file - 3) file) as Hsplit.
  replace (String.length file - (String.length file - 3))%nat with 3%nat in Hsplit by lia.
  apply Hsplit. lia.
Qed.

Section Collecting.
Context {W D : Type}.

Lemma collect_file_entry (X : Externals W D) (tree : list (string * list string * list string))
    (root : string) (dirs files : list string) (file : string)
    (rd rd' : gmap string RequirementsInfo) (st st' : State W) :
  In (root, dirs, files) tree -> In file files ->
  entry_of_walk X (world st) tree rd ->
  collect_file X root file rd st = (Ok rd', st') ->
  world st' = world st /\ entry_of_walk X (world st) tree rd'.
Proof.
  intros Htree Hfile Hinv. unfold collect_file.
  destruct (endswith file ".py") eqn:Hpy; simpl;
    [destruct (String.eqb_spec file "__init__.py") as [->|Hne]; simpl|];
    try (intros [= <- <-]; now split).
  rewrite bind_run. unfold logger_debug, emit at 1.
  rewrite bind_run. unfold emit at 1.
  rewrite bind_run. unfold ext_read at 1. cbn [world events].
  rewrite bind_run. unfold lift at 1.
  change (os_path_join root [file]) with (path_join2 root file).
  destruct (get_contrib_requirements (runtime X (world st)) (path_join2 root file))
    as [info|e] eqn:Hinfo; cbn; [|discriminate].
  intros [= <- <-]. split; [reflexivity|].
  intros key info'. destruct (decide (key = drop_last3 file)) as [->|Hkey].
  - rewrite lookup_insert_eq. intros [= <-]. rewrite drop_last3_py by assumption.
    split.
    + intros Hinit. apply Hne. rewrite <- (drop_last3_py file Hpy), Hinit. reflexivity.
    + now exists root, dirs, files.
  - rewrite lookup_insert_ne by congruence. apply Hinv.
Qed.

Lemma collect_files_entry (X : Externals W D) (tree : list (string * list string * list string))
    (root : string) (dirs files some : list string)
    (rd rd' : gmap string RequirementsInfo) (st st' : State W) :
  In (root, dirs, files) tree -> (forall file, In file some -> In file files) ->
  entry_of_walk X (world st) tree rd ->
  for_fold some (collect_file X root) rd st = (Ok rd', st') ->
  world st' = world st /\ entry_of_walk X (world st) tree rd'.
Proof.
  intros Htree. revert rd st. induction some as [|file some IH]; intros rd st Hsub Hinv.
  - simpl. intros [= <- <-]. now split.
  - cbn [for_fold]. rewrite bind_run.
    destruct (collect_file X root file rd st) as [[rd1|e] st1] eqn:H1; [|discriminate].
    destruct (collect_file_entry X tree root dirs files file rd rd1 st st1)
      as [Hw1 Hinv1]; auto; [apply Hsub; now left|].
    intros H. destruct (IH rd1 st1) as [Hw Hinv']; auto.
    + intros f Hf. apply Hsub. now right.
    + now rewrite Hw1.
    + rewrite Hw1 in *. now split.
Qed.

(** X11: every key of the mapping that [build_gallery] collects is the name,
    without its [.py], of a file that [os.walk] listed, and its value is
    what the extractor returned for that file; [__init__] is never a key. *)
Theorem collected_keys_are_plugin_files (X : Externals W D) (dir : string)
    (st st' : State W) (requirements_dict : gmap string RequirementsInfo)
    (key : string) (info : RequirementsInfo) :
  collect_requirements X dir st = (Ok requirements_dict, st') ->
  requirements_dict !! key = Some info ->
  key <> "__init__"
  /\ exists root dirs files,
       In (root, dirs, files) (os_walk X dir (world st))
       /\ In (key +:+ ".py") files
       /\ get_contrib_requirements (runtime X (world st))
            (os_path_join root [key +:+ ".py"]) = Ok info.
Proof.
  unfold collect_requirements. rewrite bind_run. unfold emit at 1.
  rewrite bind_run. unfold ext_read at 1. cbn [world events].
  set (tree := os_walk X dir (world st)).
  set (st0 := {| world := world st; events := events st ++ [OsWalk dir] |}).
  change (world st) with (world st0). intros Hrun.
  assert (forall some rd rd' s s',
            (forall t, In t some -> In t tree) ->
            entry_of_walk X (world s) tree rd ->
            for_fold some (fun '(root, dirs, files) requirements_dict =>
                             for_fold files (collect_file X root) requirements_dict) rd s
            = (Ok rd', s') ->
            world s' = world s /\ entry_of_walk X (world s) tree rd') as Hloop.
  { induction some as [|[[root dirs] files] some IH]; intros rd rd' s s' Hsub Hinv.
    - simpl. intros [= <- <-]. now split.
    - cbn [for_fold]. rewrite bind_run.
      destruct (for_fold files (collect_file X root) rd s) as [[rd1|e] s1] eqn:H1;
        [|discriminate].
      destruct (collect_files_entry X tree root dirs files files rd rd1 s s1)
        as [Hw1 Hinv1]; auto; [apply Hsub; now left|].
      intros H. destruct (IH rd1 rd' s1 s') as [Hw Hinv']; auto.
      + intros t Ht. apply Hsub. now right.
      + now rewrite Hw1.
      + rewrite Hw1 in *. now split. }
  destruct (Hloop tree ∅ requirements_dict st0 st') as [_ Hinv];
    [auto | intros k i; now rewrite lookup_empty | exact Hrun | apply Hinv].
Qed.
End Collecting.

Lemma collected_keys_are_plugin_files_witness :
  "expect_foo" <> "__init__"
  /\ exists root dirs files,
       In (root, dirs, files) (os_walk sample_externals sample_dir (world sample_state))
       /\ In ("expect_foo" +:+ ".py") files
       /\ get_contrib_requirements (runtime sample_externals (world sample_state))
            (os_path_join root ["expect_foo" +:+ ".py"])
          = Ok {| classes := chars "ExpectFoo";
                  requirements := [VStr "numpy>=1.20"; VStr "pandas"; VStr "scipy"] |}.
Proof.
  apply (collected_keys_are_plugin_files sample_externals sample_dir sample_state
           (snd (collect_requirements sample_externals sample_dir sample_state))
           sample_requirements_dict).
  - vm_compute. reflexivity.
  - vm_compute. reflexivity.
Defined.

(** ** The orchestrator: nothing outside the plan *)

(** X12: whatever the outcome of the loop over the plugin modules, also
    when a call of the installer or an import raises, the installations and
    imports it has made are the first part of its plan, in order, and
    nothing else; they are the whole plan when the loop returns. *)
Theorem only_planned_actions {W D : Type} (X : Externals W D) (prefix : string)
    (names : list string) (requirements_dict : gmap string RequirementsInfo)
    (st : State W) :
  exists made rest,
    planned_actions X prefix names requirements_dict = made ++ rest
    /\ filter (fun e => is_action e = true)
         (events (snd (load_modules X prefix names requirements_dict st)))
       = filter (fun e => is_action e = true) (events st) ++ made
    /\ (fst (load_modules X prefix names requirements_dict st) = Ok tt -> rest = []).
Proof. apply load_modules_made. Qed.

(** ** The orchestrator: a plugin file that cannot be read *)

Section Aborting.
Context {W D : Type}.

Lemma aborts_bind_now {A B} (P : event -> Prop) (m : M W A) (f : A -> M W B) :
  aborts P m -> aborts P (m ≫= f).
Proof.
  intros Hm st. rewrite bind_run. destruct (Hm st) as [[e He] Hev].
  destruct (m st) as [[a|e'] st1]; simpl in *; [discriminate|].
  split; [now exists e' | assumption].
Qed.

Lemma aborts_bind_later {A B} (P : event -> Prop) (m : M W A) (f : A -> M W B) :
  emits P m -> (forall a, aborts P (f a)) -> aborts P (m ≫= f).
Proof.
  intros Hm Hf st. rewrite bind_run. destruct (Hm st) as (evs & He & HP).
  destruct (m st) as [[a|e] st1]; simpl in *.
  - destruct (Hf a st1) as [Hr (evs' & He' & HP')]. split; [assumption|].
    exists (evs ++ evs'). rewrite He', He, app_assoc. split; [reflexivity|].
    now apply Forall_app.
  - split; [now exists e | now exists evs].
Qed.

Lemma aborts_ext_read {A B} (P : event -> Prop) (g : W -> A) (f : A -> M W B) :
  (forall w, aborts P (f (g w))) -> aborts P (ext_read g ≫= f).
Proof. intros H st. rewrite bind_run. unfold ext_read. apply H. Qed.

Lemma aborts_for_fold {A B} (P : event -> Prop) (l : list A) (body : A -> B -> M W B)
    (x : A) (acc : B) :
  In x l -> (forall b, aborts P (body x b)) -> (forall y b, emits P (body y b)) ->
  aborts P (for_fold l body acc).
Proof.
  intros Hin Hx Hy. revert acc. induction l as [|y l IH]; [destruct Hin|].
  intros acc. cbn [for_fold]. destruct Hin as [->|Hin].
  - apply aborts_bind_now, Hx.
  - apply aborts_bind_later; [apply Hy | intros b; now apply IH].
Qed.

Ltac emits_quiet :=
  repeat first
    [ apply emits_ret | apply emits_emit; reflexivity | apply emits_ext_read
    | apply emits_ext_call | apply emits_ext_try | apply emits_lift
    | apply emits_bind; [|intros ?] ].

Lemma emits_collect_file (X : Externals W D) (root file : string)
    (rd : gmap string RequirementsInfo) :
  emits (fun e => is_run e = false) (collect_file X root file rd).
Proof.
  unfold collect_file.
  destruct (endswith file ".py" && negb (String.eqb file "__init__.py"));
    unfold logger_debug; emits_quiet.
Qed.

(** Collecting stops at a listed plugin file whose extraction raises. *)
Lemma aborts_collect_requirements (X : Externals W D) (dir root : string)
    (dirs files : list string) (file : string) :
  (forall w, In (root, dirs, files) (os_walk X dir w)) ->
  In file files ->
  endswith file ".py" = true ->
  file <> "__init__.py" ->
  (forall w, exists e,
      get_contrib_requirements (runtime X w) (os_path_join root [file]) = Raise e) ->
  aborts (fun e => is_run e = false) (collect_requirements X dir).
Proof.
  intros Hwalk Hfile Hpy Hne Hbad. unfold collect_requirements.
  apply aborts_bind_later; [emits_quiet | intros _].
  apply aborts_ext_read. intros w.
  apply aborts_for_fold with (x := (root, dirs, files)); [apply Hwalk | |].
  - intros rd. apply aborts_for_fold with (x := file); [assumption | |].
    + intros rd'. unfold collect_file. rewrite Hpy.
      destruct (String.eqb_spec file "__init__.py") as [Heq|_]; [contradiction|].
      cbn [andb negb]. unfold logger_debug.
      apply aborts_bind_later; [emits_quiet | intros _].
      apply aborts_bind_later; [emits_quiet | intros _].
      apply aborts_ext_read. intros w'. apply aborts_bind_now.
      intros st. destruct (Hbad w') as [e He]. unfold lift. rewrite He. split.
      * now exists e.
      * exists []. now rewrite app_nil_r.
    + intros f rd'. apply emits_collect_file.
  - intros [[r ds] fs] rd. apply emits_for_fold. intros f rd'. apply emits_collect_file.
Qed.

(** X13: when a [.py] file that [os.walk] lists in the plugin directory
    cannot be extracted, a run with the experimental plugins raises, and
    the installer has not been run once. *)
Theorem unreadable_plugin_aborts_before_installing (X : Externals W D)
    (include_core : bool) (st : State W) (root : string) (dirs files : list string)
    (file : string) :
  (forall w, In (root, dirs, files) (os_walk X (contrib_experimental_dir_of X) w)) ->
  In file files ->
  endswith file ".py" = true ->
  file <> "__init__.py" ->
  (forall w, exists e,
      get_contrib_requirements (runtime X w) (os_path_join root [file]) = Raise e) ->
  (exists e, fst (build_gallery X include_core true st) = Raise e)
  /\ exists evs,
       events (snd (build_gallery X include_core true st)) = events st ++ evs
       /\ Forall (fun e => is_run e = false) evs.
Proof.
  intros Hwalk Hfile Hpy Hne Hbad. revert st.
  change (aborts (fun e => is_run e = false) (build_gallery X include_core true)).
  unfold build_gallery, logger_info.
  do 5 (apply aborts_bind_later; [emits_quiet | intros ?]).
  apply aborts_bind_now. unfold load_contrib_experimental, logger_info.
  do 3 (apply aborts_bind_later; [emits_quiet | intros ?]).
  apply aborts_bind_later;
    [unfold importlib_import_module; emits_quiet | intros expectations_module].
  apply aborts_bind_now.
  now apply aborts_collect_requirements with root dirs files file.
Qed.
End Aborting.

Lemma unreadable_plugin_aborts_before_installing_witness :
  (exists e, fst (build_gallery broken_plugin_externals true true sample_state) = Raise e)
  /\ exists evs,
       events (snd (build_gallery broken_plugin_externals true true sample_state))
       = events sample_state ++ evs
       /\ Forall (fun e => is_run e = false) evs.
Proof.
  apply (unreadable_plugin_aborts_before_installing broken_plugin_externals true
           sample_state (sample_dir +:+ "/expectations") []
           ["__init__.py"; "expect_foo.py"; "notes.txt"] "expect_foo.py").
  - intros w. right. left. reflexivity.
  - right. left. reflexivity.
  - reflexivity.
  - discriminate.
  - intros w. exists ValueError. reflexivity.
Defined.
